(** * Lineup optimizer: formation legality, player status and swap planning

    A shallow embedding of [fantrax_extensions/lineup_optimizer/optimizer.py].

    Conventions of the embedding.
    - Python [int] is [Z] (unbounded).
    - A timezone-aware [datetime] is the number of microseconds since the
      epoch, a [Z]; a [timedelta] is a difference of two such numbers.
      [timedelta.total_seconds()] is the exact quotient of the microsecond
      count by 10^6, so comparing it with 7200 is comparing the microsecond
      count with 7200 * 10^6.
    - [Optional[T]] is [option T]; a tri-state boolean is [option bool].
    - The status dictionary [player_statuses] is a [gmap string PlayerStatus].
    - A Python exception is a value of [exn]; code that can raise lives in
      the [result] monad, code that also mutates [self] in the monad [M]. *)

From stdpp Require Import gmap strings list pretty.
From Stdlib Require Import ZArith Lia Ascii.

Local Open Scope string_scope.
Local Open Scope Z_scope.

(** ** Formation *)

Record Formation := mkFormation {
  gk : Z;
  def_ : Z;
  mid : Z;
  fwd : Z
}.

Module FormationM.

(** [Formation.is_legal]: 11 players, one goalkeeper, 3-5 defenders,
    2-5 midfielders, 1-3 forwards. *)
Definition is_legal (self : Formation) : bool :=
  let total_players := gk self + def_ self + mid self + fwd self in
  (total_players =? 11) &&
  (gk self =? 1) &&
  ((3 <=? def_ self) && (def_ self <=? 5)) &&
  ((2 <=? mid self) && (mid self <=? 5)) &&
  ((1 <=? fwd self) && (fwd self <=? 3)).

(** [Formation.__str__]: the four counts joined by dashes. *)
Definition to_str (self : Formation) : string :=
  pretty (gk self) +:+ "-" +:+ pretty (def_ self) +:+ "-" +:+
  pretty (mid self) +:+ "-" +:+ pretty (fwd self).

End FormationM.

(** ** PlayerStatus *)

(** Microseconds in the units the source uses. *)
Definition seconds (n : Z) : Z := n * 1000000.
Definition minutes (n : Z) : Z := seconds (60 * n).

Record PlayerStatus := mkPlayerStatus {
  is_starting : option bool;
  is_benched : option bool;
  game_time : option Z;
  is_locked : bool;
  opponent : option string
}.

#[global] Instance PlayerStatus_eq_dec : EqDecision PlayerStatus.
Proof. solve_decision. Defined.

Module PlayerStatusM.

(** [PlayerStatus.is_confirmed_not_starting] *)
Definition is_confirmed_not_starting (self : PlayerStatus) : bool :=
  match is_starting self with
  | Some b => negb b
  | None => false
  end
  ||
  match is_benched self with
  | Some b => b
  | None => false
  end.

(** [PlayerStatus.is_game_soon]: a [datetime] is always truthy, so
    [not self.game_time] holds exactly when it is [None]. *)
Definition is_game_soon (self : PlayerStatus) (current_time : Z) : bool :=
  match game_time self with
  | None => false
  | Some gt =>
      let time_until_game := gt - current_time in
      time_until_game <=? seconds 7200
  end.

End PlayerStatusM.

(** ** Exceptions *)

Inductive exn :=
| KeyError (key : string)
| IndexError (msg : string)
| AttributeError (msg : string)
| ValueError (msg : string)
| RequestException (msg : string).

Inductive result (A : Type) :=
| Ok (a : A)
| Raise (e : exn).
Arguments Ok {A} a.
Arguments Raise {A} e.

#[global] Instance result_ret : MRet result := λ A a, Ok a.
#[global] Instance result_bind : MBind result := λ A B f r,
  match r with
  | Ok a => f a
  | Raise e => Raise e
  end.

(** A [for] loop whose body may raise: the loop stops at the first
    exception. *)
Fixpoint for_each {A B : Type} (body : A → B → result A) (l : list B) (a : A)
  : result A :=
  match l with
  | [] => Ok a
  | b :: l' => a' ← body a b; for_each body l' a'
  end.

(** [list.remove(x)]: drops the first element equal to [x], raises
    [ValueError] when there is none. *)
Fixpoint list_remove {A : Type} `{EqDecision A} (x : A) (l : list A)
  : result (list A) :=
  match l with
  | [] => Raise (ValueError "list.remove(x): x not in list")
  | y :: l' =>
      if decide (y = x) then Ok l'
      else l'' ← list_remove x l'; Ok (y :: l'')
  end.

(** ** Roster rows (the external roster API, as far as the optimizer reads it) *)

Module Player.
Record t := mk { id : string; name : string }.
#[global] Instance eq_dec : EqDecision t.
Proof. solve_decision. Defined.
End Player.

Record Position := mkPosition { short_name : string }.

#[global] Instance Position_eq_dec : EqDecision Position.
Proof. solve_decision. Defined.

Record RosterRow := mkRosterRow {
  pos : Position;
  player : option Player.t
}.

#[global] Instance RosterRow_eq_dec : EqDecision RosterRow.
Proof. solve_decision. Defined.

Record Roster := mkRoster {
  get_starters : list RosterRow;
  get_bench_players : list RosterRow
}.

(** [row.player.id] / [row.player.name]: attribute access on [None] raises. *)
Definition the_player (row : RosterRow) : result Player.t :=
  match player row with
  | Some p => Ok p
  | None => Raise (AttributeError "'NoneType' object has no attribute 'id'")
  end.

(** ** LineupOptimizer *)

Record LineupOptimizer := mkLineupOptimizer {
  league_id : string;
  team_id : string;
  player_statuses : gmap string PlayerStatus;
  last_check_time : option Z
}.

(** A swap proposal [(starter, bench, reason)]. *)
Definition proposal : Type := RosterRow * RosterRow * string.

Definition proposal_starter (p : proposal) : RosterRow := p.1.1.
Definition proposal_bench (p : proposal) : RosterRow := p.1.2.
Definition proposal_reason (p : proposal) : string := p.2.

(** Rendering of an [Optional[str]] inside an f-string. *)
Definition fmt_opt (o : option string) : string :=
  match o with
  | Some s => s
  | None => "None"
  end.

(** [LineupOptimizer.get_player_status]: [dict.get], [None] when absent. *)
Definition get_player_status (self : LineupOptimizer) (player_id : string)
  : option PlayerStatus :=
  player_statuses self !! player_id.

(** One iteration of the counting loop of [get_current_formation]. *)
Definition count_row (f : Formation) (row : RosterRow) : Formation :=
  let p := short_name (pos row) in
  if String.eqb p "G" then mkFormation (gk f + 1) (def_ f) (mid f) (fwd f)
  else if String.eqb p "D" then mkFormation (gk f) (def_ f + 1) (mid f) (fwd f)
  else if String.eqb p "M" then mkFormation (gk f) (def_ f) (mid f + 1) (fwd f)
  else if String.eqb p "F" then mkFormation (gk f) (def_ f) (mid f) (fwd f + 1)
  else f.

(** [LineupOptimizer.get_current_formation] *)
Definition get_current_formation (roster : Roster) : Formation :=
  fold_left count_row (get_starters roster) (mkFormation 0 0 0 0).

(** The two position adjustments of [can_swap_players]. *)
Definition leave_lineup (f : Formation) (p : string) : Formation :=
  if String.eqb p "G" then mkFormation (gk f - 1) (def_ f) (mid f) (fwd f)
  else if String.eqb p "D" then mkFormation (gk f) (def_ f - 1) (mid f) (fwd f)
  else if String.eqb p "M" then mkFormation (gk f) (def_ f) (mid f - 1) (fwd f)
  else if String.eqb p "F" then mkFormation (gk f) (def_ f) (mid f) (fwd f - 1)
  else f.

Definition enter_lineup (f : Formation) (p : string) : Formation :=
  if String.eqb p "G" then mkFormation (gk f + 1) (def_ f) (mid f) (fwd f)
  else if String.eqb p "D" then mkFormation (gk f) (def_ f + 1) (mid f) (fwd f)
  else if String.eqb p "M" then mkFormation (gk f) (def_ f) (mid f + 1) (fwd f)
  else if String.eqb p "F" then mkFormation (gk f) (def_ f) (mid f) (fwd f + 1)
  else f.

(** The formation [can_swap_players] simulates. *)
Definition formation_after_swap (starter bench : RosterRow)
    (current_formation : Formation) : Formation :=
  let new_formation :=
    mkFormation (gk current_formation) (def_ current_formation)
                (mid current_formation) (fwd current_formation) in
  let new_formation := leave_lineup new_formation (short_name (pos starter)) in
  enter_lineup new_formation (short_name (pos bench)).

(** [status and status.is_locked]: a [PlayerStatus] object is truthy. *)
Definition locked (status : option PlayerStatus) : bool :=
  match status with
  | Some s => is_locked s
  | None => false
  end.

(** The three outcomes of [can_swap_players] other than success. *)
Definition starter_locked_reason (starter_player : Player.t) : string :=
  "Cannot move " +:+ Player.name starter_player +:+
  " to bench - player is locked (game in progress)".

Definition bench_locked_reason (bench_player : Player.t) : string :=
  "Cannot move " +:+ Player.name bench_player +:+
  " to starting lineup - player is locked (game in progress)".

Definition illegal_formation_reason (new_formation : Formation) : string :=
  "Invalid formation after swap: " +:+ FormationM.to_str new_formation +:+
  " (must have exactly 11 players with valid position counts)".

(** The last step of [can_swap_players]: the legality check of the
    simulated formation. *)
Definition formation_verdict (new_formation : Formation) : bool * string :=
  if negb (FormationM.is_legal new_formation) then
    (false, illegal_formation_reason new_formation)
  else
    (true, "Swap is valid").

(** [LineupOptimizer.can_swap_players]: returns [(can_swap, reason)]. *)
Definition can_swap_players (self : LineupOptimizer) (starter bench : RosterRow)
    (current_formation : Formation) : result (bool * string) :=
  starter_player ← the_player starter;
  let starter_status := get_player_status self (Player.id starter_player) in
  if locked starter_status then
    Ok (false, starter_locked_reason starter_player)
  else
    bench_player ← the_player bench;
    let bench_status := get_player_status self (Player.id bench_player) in
    if locked bench_status then
      Ok (false, bench_locked_reason bench_player)
    else
      Ok (formation_verdict (formation_after_swap starter bench current_formation)).

(** ** The swap planner *)

(** An element of [starter_players] / [bench_players]: a row with the
    status looked up for its player. *)
Definition entry : Type := RosterRow * option PlayerStatus.

(** The two collection loops of [find_optimal_swaps]: rows without a player
    are skipped. *)
Fixpoint collect (self : LineupOptimizer) (rows : list RosterRow) : list entry :=
  match rows with
  | [] => []
  | row :: rows' =>
      match player row with
      | None => collect self rows'
      | Some p => (row, get_player_status self (Player.id p)) :: collect self rows'
      end
  end.

Definition same_position (starter bench : RosterRow) : bool :=
  String.eqb (short_name (pos starter)) (short_name (pos bench)).

Definition reason_direct_later (starter_status bench_status : PlayerStatus) : string :=
  "Direct position match - replacing confirmed non-starter (" +:+
  fmt_opt (opponent starter_status) +:+
  ") with player from later game (" +:+ fmt_opt (opponent bench_status) +:+ ")".

Definition reason_flexible_later (starter_status bench_status : PlayerStatus) : string :=
  "Position flexible swap - replacing confirmed non-starter (" +:+
  fmt_opt (opponent starter_status) +:+
  ") with player from later game (" +:+ fmt_opt (opponent bench_status) +:+ ")".

Definition reason_direct_starter : string :=
  "Direct position match - replacing non-starter with confirmed starter".

Definition reason_flexible_starter : string :=
  "Position flexible swap - replacing non-starter with confirmed starter".

(** The variables of the inner loop of pass 1.  [best_bench] and
    [best_reason] are assigned together everywhere, so they are kept as one
    optional pair; [latest_game_time] is separate. *)
Definition scan1 : Type := option (RosterRow * string) * option Z.

(** [not latest_game_time or bench_status.game_time > latest_game_time] *)
Definition later_than (latest_game_time : option Z) (gt : Z) : bool :=
  match latest_game_time with
  | None => true
  | Some l => l <? gt
  end.

(** Body of the inner loop of pass 1 (one bench candidate). *)
Definition pass1_candidate (self : LineupOptimizer) (current_time : Z)
    (current_formation : Formation) (starter : RosterRow)
    (starter_status : PlayerStatus) (acc : scan1) (cand : entry) : result scan1 :=
  let '(best, latest_game_time) := acc in
  let '(bench, bench_status) := cand in
  match bench_status with
  | None => Ok acc
  | Some bs =>
      match game_time bs with
      | None => Ok acc
      | Some gt =>
          if PlayerStatusM.is_game_soon bs current_time then Ok acc
          else
            '(can_swap, _) ← can_swap_players self starter bench current_formation;
            if (can_swap : bool) then
              if later_than latest_game_time gt then
                if same_position starter bench then
                  Ok (Some (bench, reason_direct_later starter_status bs), Some gt)
                else if negb (bool_decide (is_Some best)) then
                  Ok (Some (bench, reason_flexible_later starter_status bs), Some gt)
                else Ok acc
              else Ok acc
            else Ok acc
      end
  end.

(** The state of the outer loops: the proposals so far and the bench
    players not yet claimed. *)
Definition plan : Type := list proposal * list entry.

(** [swaps.append(...)] followed by [bench_players.remove(...)]. *)
Definition accept (self : LineupOptimizer) (st : plan) (starter : RosterRow)
    (best : option (RosterRow * string)) : result plan :=
  match best with
  | None => Ok st
  | Some (best_bench, best_reason) =>
      let swaps := (st.1 ++ [(starter, best_bench, best_reason)])%list in
      bp ← the_player best_bench;
      bench_players ← list_remove
        (best_bench, get_player_status self (Player.id bp)) st.2;
      Ok (swaps, bench_players)
  end.

(** Body of the outer loop of pass 1 (one starter). *)
Definition pass1_starter (self : LineupOptimizer) (current_time : Z)
    (current_formation : Formation) (st : plan) (s : entry) : result plan :=
  let '(starter, starter_status) := s in
  match starter_status with
  | None => Ok st
  | Some ss =>
      if PlayerStatusM.is_game_soon ss current_time then
        if PlayerStatusM.is_confirmed_not_starting ss then
          '(best, _) ← for_each
            (pass1_candidate self current_time current_formation starter ss)
            st.2 (None, None);
          accept self st starter best
        else Ok st
      else Ok st
  end.

(** Inner loop of pass 2; the [break] ends the scan at the first
    same-position candidate. *)
Fixpoint pass2_scan (self : LineupOptimizer) (current_formation : Formation)
    (starter : RosterRow) (bench_players : list entry)
    (best : option (RosterRow * string)) : result (option (RosterRow * string)) :=
  match bench_players with
  | [] => Ok best
  | (bench, bench_status) :: rest =>
      let confirmed :=
        match bench_status with
        | Some bs =>
            match is_starting bs with
            | Some b => b
            | None => false
            end
        | None => false
        end in
      if confirmed then
        '(can_swap, _) ← can_swap_players self starter bench current_formation;
        if (can_swap : bool) then
          if same_position starter bench then
            Ok (Some (bench, reason_direct_starter))
          else if negb (bool_decide (is_Some best)) then
            pass2_scan self current_formation starter rest
              (Some (bench, reason_flexible_starter))
          else pass2_scan self current_formation starter rest best
        else pass2_scan self current_formation starter rest best
      else pass2_scan self current_formation starter rest best
  end.

(** Body of the outer loop of pass 2 (one starter). *)
Definition pass2_starter (self : LineupOptimizer)
    (current_formation : Formation) (st : plan) (s : entry) : result plan :=
  let '(starter, starter_status) := s in
  match starter_status with
  | None => Ok st
  | Some ss =>
      if PlayerStatusM.is_confirmed_not_starting ss then
        best ← pass2_scan self current_formation starter st.2 None;
        accept self st starter best
      else Ok st
  end.

(** [LineupOptimizer.find_optimal_swaps], with the clock reading
    [datetime.now(timezone.utc)] as the argument [current_time]. *)
Definition find_optimal_swaps (self : LineupOptimizer) (roster : Roster)
    (current_time : Z) : result (list proposal) :=
  let swaps : list proposal := [] in
  let current_formation := get_current_formation roster in
  let starter_players := collect self (get_starters roster) in
  let bench_players := collect self (get_bench_players roster) in
  st ← for_each (pass1_starter self current_time current_formation)
        starter_players (swaps, bench_players);
  st ← for_each (pass2_starter self current_formation) starter_players st;
  Ok st.1.

(** ** Methods as state transformers

    A method call takes the optimizer object and gives its result (or the
    exception it raises) with the object as the call leaves it. *)
Definition M (A : Type) : Type := LineupOptimizer → result A * LineupOptimizer.

(** [find_optimal_swaps] as a method call: it reads [self.player_statuses]
    through [get_player_status] and assigns no attribute of [self]; the list
    [bench_players] it shortens is its own local list. *)
Definition call_find_optimal_swaps (roster : Roster) (current_time : Z)
  : M (list proposal) :=
  λ self, (find_optimal_swaps self roster current_time, self).

#[global] Instance M_ret : MRet M := λ A a self, (Ok a, self).
#[global] Instance M_bind : MBind M := λ A B f m self,
  match m self with
  | (Ok a, self') => f a self'
  | (Raise e, self') => (Raise e, self')
  end.

(** A pure computation that may raise, run inside a method. *)
Definition lift {A : Type} (r : result A) : M A := λ self, (r, self).

(** [try: body except Exception as e: logging.error(...)]: every exception
    of [exn] derives from [Exception]; the handler only logs (log output is
    not part of the model), so the call ends normally with the object as
    the body left it. *)
Definition try_except (body : M unit) : M unit :=
  λ self,
    match body self with
    | (Ok u, self') => (Ok u, self')
    | (Raise _, self') => (Ok tt, self')
    end.

Definition set_last_check_time (now : Z) : M unit :=
  λ self, (Ok tt, mkLineupOptimizer (league_id self) (team_id self)
                    (player_statuses self) (Some now)).

(** [self.player_statuses.clear()] *)
Definition clear_player_statuses : M unit :=
  λ self, (Ok tt, mkLineupOptimizer (league_id self) (team_id self)
                    ∅ (last_check_time self)).

(** [self.player_statuses[player_id] = status] *)
Definition store_player_status (player_id : string) (status : PlayerStatus)
  : M unit :=
  λ self, (Ok tt, mkLineupOptimizer (league_id self) (team_id self)
                    (<[player_id := status]> (player_statuses self))
                    (last_check_time self)).

(** ** The status refresh *)

(** The JSON of the starting-players feed, as far as the refresh reads it.
    An absent key is [None]. *)
Module Json.
Record player := mkPlayer {
  scorerId : option string;
  opponent : option string;
  miscDisplayType : option string
}.
Record paginated := mkPaginated {
  totalNumResults : option Z;
  totalNumPages : option Z;
  maxResultsPerPage : option Z
}.
Record data := mkData {
  paginatedResultSet : option paginated;
  statsTable : option (list player)
}.
Record response := mkResponse { data_ : option data }.
Record body := mkBody { responses : option (list response) }.
End Json.

(** [str.split(sep)] for a non-empty separator: [skip] counts the
    characters of a separator found earlier that are still to be passed. *)
Fixpoint split_from (sep s : string) (skip : nat) : list string :=
  match s with
  | EmptyString => [""]
  | String c s' =>
      match skip with
      | S k => split_from sep s' k
      | O =>
          if String.prefix sep s then
            "" :: split_from sep s' (Nat.pred (String.length sep))
          else
            match split_from sep s' O with
            | h :: t => String c h :: t
            | [] => [String c ""]
            end
      end
  end.

Definition split (s sep : string) : list string := split_from sep s O.

(** [data["responses"][0]["data"]] *)
Definition responses_0_data (data : Json.body) : result Json.data :=
  rs ← match Json.responses data with
       | Some rs => Ok rs
       | None => Raise (KeyError "responses")
       end;
  r ← match rs with
      | r :: _ => Ok r
      | [] => Raise (IndexError "list index out of range")
      end;
  match Json.data_ r with
  | Some d => Ok d
  | None => Raise (KeyError "data")
  end.

(** [paginated_info.get("totalNumPages", 0)] on
    [data.get("paginatedResultSet", {})]. *)
Definition total_pages_of (d : Json.data) : Z :=
  match Json.paginatedResultSet d with
  | Some info => default 0 (Json.totalNumPages info)
  | None => 0
  end.

(** The status code of a record mapped to the two tri-state fields. *)
Definition starting_benched (misc_type : option string)
  : option bool * option bool :=
  match misc_type with
  | Some code =>
      if String.eqb code "10" then (Some true, Some false)
      else if String.eqb code "11" then (Some false, Some true)
      else (None, None)
  | None => (None, None)
  end.

(** Locked from one minute before the game. *)
Definition locked_at (now : Z) (game_time : option Z) : bool :=
  match game_time with
  | Some gt => gt - minutes 1 <=? now
  | None => false
  end.

Section StatusTracker.

(** [fetch_player_page]: the HTTP request and [response.json()]; it
    raises on a transport or decoding failure. *)
Variable fetch_player_page : Z → result Json.body.

(** [strptime_today now time_str] stands for
    [datetime.strptime(f"{now.date()} {time_str}", "%Y-%m-%d %I:%M%p")
     .replace(tzinfo=timezone.utc)]: [None] is its [ValueError]. *)
Variable strptime_today : Z → string → option Z.

(** The [while current_page <= total_pages] loop; [remaining] is the
    number of iterations left, [total_pages - current_page + 1]. *)
Fixpoint fetch_pages (remaining : nat) (current_page : Z)
    (data : Json.body) (all_players : list Json.player)
  : result (list Json.player) :=
  match remaining with
  | O => Ok all_players
  | S n =>
      data ← (if 1 <? current_page then fetch_player_page current_page
              else Ok data);
      d ← responses_0_data data;
      let all_players :=
        match Json.statsTable d with
        | Some stats_table => (all_players ++ stats_table)%list
        | None => all_players
        end in
      fetch_pages n (current_page + 1) data all_players
  end.

(** Everything between the [clear()] and the loop over the records. *)
Definition fetch_all_players : result (list Json.player) :=
  data ← fetch_player_page 1;
  d ← responses_0_data data;
  let total_pages := total_pages_of d in
  fetch_pages (Z.to_nat total_pages) 1 data [].

(** The opponent/kick-off composite of one record. *)
Definition parse_opponent (now : Z) (p : Json.player)
  : option string * option Z :=
  match Json.opponent p with
  | None => (None, None)
  | Some composite =>
      match split composite "<br/>" with
      | [opp; time_str] => (Some opp, strptime_today now time_str)
      | _ => (None, None)
      end
  end.

(** The [PlayerStatus] built for one record. *)
Definition status_of_record (now : Z) (p : Json.player) : PlayerStatus :=
  let '(opponent, game_time) := parse_opponent now p in
  let is_locked := locked_at now game_time in
  let '(is_starting, is_benched) := starting_benched (Json.miscDisplayType p) in
  mkPlayerStatus is_starting is_benched game_time is_locked opponent.

(** Body of the loop over the records. *)
Definition process_player (now : Z) (p : Json.player) : M unit :=
  player_id ← lift (match Json.scorerId p with
                    | Some i => Ok i
                    | None => Raise (KeyError "scorerId")
                    end);
  store_player_status player_id (status_of_record now p).

Fixpoint process_players (now : Z) (all_players : list Json.player) : M unit :=
  match all_players with
  | [] => mret tt
  | p :: rest => process_player now p;; process_players now rest
  end.

(** The [try] block of [update_player_statuses]. *)
Definition update_player_statuses_body (now : Z) : M unit :=
  set_last_check_time now;;
  clear_player_statuses;;
  all_players ← lift fetch_all_players;
  process_players now all_players.

(** [LineupOptimizer.update_player_statuses], with the clock reading
    [datetime.now(timezone.utc)] as the argument [now]. *)
Definition update_player_statuses (now : Z) : M unit :=
  try_except (update_player_statuses_body now).

End StatusTracker.

(** The entries the record loop writes for a list of records, in order. *)
Definition store_all (strptime_today : Z → string → option Z) (now : Z)
    (records : list Json.player) (m : gmap string PlayerStatus)
  : gmap string PlayerStatus :=
  fold_left
    (λ m p, match Json.scorerId p with
            | Some i => <[i := status_of_record strptime_today now p]> m
            | None => m
            end)
    records m.

(** The status map has an entry for [p] whose [is_locked] is true. *)
Definition has_locked_entry (self : LineupOptimizer) (p : Player.t) : Prop :=
  ∃ st, player_statuses self !! Player.id p = Some st ∧ is_locked st = true.

(** A feed record that carries a player identifier. *)
Definition has_id (p : Json.player) : Prop := is_Some (Json.scorerId p).

(** A composite that [split] does not cut into exactly two parts. *)
Definition malformed_opponent (p : Json.player) : Prop :=
  ∃ composite, Json.opponent p = Some composite ∧
               length (split composite "<br/>") ≠ 2%nat.

(** ** Notions used to state the planner's invariants *)

(** An entry as the collection loops build it: the row holds a player and
    the status is the one the map gives for that player. *)
Definition wf_entry (self : LineupOptimizer) (e : entry) : Prop :=
  ∃ p, player e.1 = Some p ∧ e.2 = get_player_status self (Player.id p).

(** The player identifiers of the occupied rows of a list, in order. *)
Definition occupied_ids (rows : list RosterRow) : list string :=
  omap (λ r, Player.id <$> player r) rows.

(** The planner's loop invariant: the unclaimed entries are well formed, and
    the bench rows proposed so far together with the unclaimed ones are the
    rows [pool] the cycle started with, up to order. *)
Definition plan_inv (self : LineupOptimizer) (pool : list RosterRow)
    (st : plan) : Prop :=
  Forall (wf_entry self) st.2 ∧
  (map proposal_bench st.1 ++ st.2.*1)%list ≡ₚ pool.

(** A scan result is either nothing or a row of the scanned pool. *)
Definition picked_from (bench_players : list entry)
    (best : option (RosterRow * string)) : Prop :=
  best = None ∨ ∃ b r s, best = Some (b, r) ∧ (b, s) ∈ bench_players.

(** ** Concrete rosters and feeds used in the examples below *)

Module Example.

Definition row (position ident : string) : RosterRow :=
  mkRosterRow (mkPosition position) (Some (Player.mk ident ident)).

(** The clock reading of the examples, and times relative to it. *)
Definition now : Z := seconds 1000000.
Definition in_minutes (n : Z) : Z := now + minutes n.

(** Eleven starters in a 1-4-4-2. *)
Definition d1 : RosterRow := row "D" "d1".
Definition starters : list RosterRow :=
  [row "G" "g1"; d1; row "D" "d2"; row "D" "d3"; row "D" "d4";
   row "M" "m1"; row "M" "m2"; row "M" "m3"; row "M" "m4";
   row "F" "f1"; row "F" "f2"].

(** [d1] is confirmed on the bench of a game that starts in 30 minutes. *)
Definition d1_status : PlayerStatus :=
  mkPlayerStatus (Some false) (Some true) (Some (in_minutes 30)) false
                 (Some "vs MUN").

(** A bench player whose line-up is not out: game in [n] minutes. *)
Definition later_game (n : Z) (opp : string) : PlayerStatus :=
  mkPlayerStatus None None (Some (in_minutes n)) false (Some opp).

(** A bench player confirmed starting in a game [n] minutes away. *)
Definition confirmed_starter (n : Z) (opp : string) : PlayerStatus :=
  mkPlayerStatus (Some true) (Some false) (Some (in_minutes n)) false
                 (Some opp).

Definition optimizer (statuses : list (string * PlayerStatus))
  : LineupOptimizer :=
  mkLineupOptimizer "league" "team" (list_to_map statuses) None.

(** Scenario 1: two bench defenders, one with a later game and one
    confirmed starting within the hour. *)
Definition b1 : RosterRow := row "D" "b1".
Definition b2 : RosterRow := row "D" "b2".
Definition roster1 : Roster := mkRoster starters [b1; b2].
Definition self1 : LineupOptimizer :=
  optimizer [("d1", d1_status); ("b1", later_game 300 "vs ARS");
             ("b2", confirmed_starter 60 "vs CHE")].

(** Scenario 2: a bench midfielder playing in 10 hours listed before a
    bench defender playing in 5 hours. *)
Definition x : RosterRow := row "M" "x".
Definition y : RosterRow := row "D" "y".
Definition roster2 : Roster := mkRoster starters [x; y].
Definition self2 : LineupOptimizer :=
  optimizer [("d1", d1_status); ("x", later_game 600 "vs LIV");
             ("y", later_game 300 "vs TOT")].

(** Scenario 3: a locked starter. *)
Definition self3 : LineupOptimizer :=
  optimizer [("d1", mkPlayerStatus (Some false) (Some true)
                      (Some (in_minutes 0)) true (Some "vs MUN"))].

(** A feed that cannot be reached. *)
Definition fetch_down (page : Z) : result Json.body :=
  Raise (RequestException "connection refused").

(** A one-page feed with the given records. *)
Definition fetch_one_page (records : list Json.player) (page : Z)
  : result Json.body :=
  Ok (Json.mkBody (Some [Json.mkResponse (Some (Json.mkData
        (Some (Json.mkPaginated (Some (Z.of_nat (length records)))
                                (Some 1) (Some 100)))
        (Some records)))])).

(** A kick-off parser that knows two times of day. *)
Definition strptime_today (now : Z) (time_str : string) : option Z :=
  let midnight := now - now `mod` seconds 86400 in
  if String.eqb time_str "4:00PM" then Some (midnight + seconds 57600)
  else if String.eqb time_str "8:00PM" then Some (midnight + seconds 72000)
  else None.

Definition rec_ok : Json.player :=
  Json.mkPlayer (Some "p1") (Some "vs MUN<br/>4:00PM") (Some "10").
Definition rec_malformed : Json.player :=
  Json.mkPlayer (Some "p2") (Some "vs ARS 8:00PM") (Some "11").
Definition rec_last : Json.player :=
  Json.mkPlayer (Some "p3") (Some "@ CHE<br/>8:00PM") (Some "12").
Definition rec_no_id : Json.player :=
  Json.mkPlayer None (Some "vs LIV<br/>8:00PM") (Some "10").

End Example.

(** ** Position counts *)

(** [LineupOptimizer.get_position_counts]: a dictionary with the four keys
    G, D, M, F; only rows that hold a player are counted, and only under a
    key the dictionary already has. *)
Definition count_position (counts : gmap string Z) (row : RosterRow)
  : gmap string Z :=
  match player row with
  | None => counts
  | Some _ =>
      let p := short_name (pos row) in
      match counts !! p with
      | Some n => <[p := n + 1]> counts
      | None => counts
      end
  end.

Definition get_position_counts (roster_rows : list RosterRow)
  : gmap string Z :=
  fold_left count_position roster_rows
    (list_to_map [("G", 0); ("D", 0); ("M", 0); ("F", 0)]).

(** The number of rows of a list at position [p]. *)
Fixpoint count_pos (p : string) (rows : list RosterRow) : Z :=
  match rows with
  | [] => 0
  | r :: rows' =>
      (if String.eqb (short_name (pos r)) p then 1 else 0) + count_pos p rows'
  end.

(** The rows of a list that hold a player. *)
Fixpoint occupied (rows : list RosterRow) : list RosterRow :=
  match rows with
  | [] => []
  | r :: rows' =>
      match player r with
      | Some _ => r :: occupied rows'
      | None => occupied rows'
      end
  end.

(** The four position codes the optimizer counts. *)
Definition known_position (p : string) : bool :=
  String.eqb p "G" || String.eqb p "D" || String.eqb p "M" || String.eqb p "F".

(** ** One optimization cycle *)

(** A call [api.swap_players(team_id, starter_id, bench_id)]. *)
Definition swap_call : Type := string * string * string.

(** The optimizer together with the swap calls sent to the roster API so
    far, oldest first. *)
Record World := mkWorld {
  optimizer : LineupOptimizer;
  swap_log : list swap_call
}.

Definition W (A : Type) : Type := World → result A * World.

#[global] Instance W_ret : MRet W := λ A a w, (Ok a, w).
#[global] Instance W_bind : MBind W := λ A B f m w,
  match m w with
  | (Ok a, w') => f a w'
  | (Raise e, w') => (Raise e, w')
  end.

(** A method of the optimizer run inside a cycle. *)
Definition on_optimizer {A : Type} (m : M A) : W A :=
  λ w, let '(r, self') := m (optimizer w) in
       (r, mkWorld self' (swap_log w)).

Definition raising {A : Type} (r : result A) : W A := λ w, (r, w).

(** The logging loop over the planned swaps reads [player.id] and
    [player.name] of both rows, which raises on a row without player. *)
Definition log_planned (optimal_swaps : list proposal) : result unit :=
  for_each (λ _ p,
              _ ← the_player (proposal_starter p);
              _ ← the_player (proposal_bench p);
              Ok tt)
           optimal_swaps tt.

Section OptimizationLoop.

(** [self.api.roster_info(team_id)] *)
Variable roster_info : string → result Roster.

(** [self.api.swap_players(team_id, starter_id, bench_id)]: its answer may
    depend on the calls made before; it may return a success flag or raise. *)
Variable swap_players : list swap_call → swap_call → result bool.

Variable fetch_player_page : Z → result Json.body.
Variable strptime_today : Z → string → option Z.

(** Body of the execution loop: the call and both logging branches sit in
    one [try] whose handler logs, so the iteration always ends normally;
    the call is sent once both identifiers have been read. *)
Definition execute_swap (p : proposal) : W unit :=
  λ w,
    match the_player (proposal_starter p) with
    | Raise _ => (Ok tt, w)
    | Ok sp =>
        match the_player (proposal_bench p) with
        | Raise _ => (Ok tt, w)
        | Ok bp =>
            let call :=
              (team_id (optimizer w), Player.id sp, Player.id bp) in
            let w' := mkWorld (optimizer w) (swap_log w ++ [call])%list in
            match swap_players (swap_log w) call with
            | Ok true => (Ok tt, w')
            | Ok false => (Ok tt, w')
            | Raise _ => (Ok tt, w')
            end
        end
    end.

Fixpoint execute_swaps (optimal_swaps : list proposal) : W unit :=
  match optimal_swaps with
  | [] => mret tt
  | p :: rest => execute_swap p;; execute_swaps rest
  end.

(** The [try] block of [optimize_lineup]; [now_refresh] and [now_plan] are
    the clock readings of the refresh and of the planner. *)
Definition optimize_lineup_body (now_refresh now_plan : Z) : W unit :=
  λ w,
    (roster ← raising (roster_info (team_id (optimizer w)));
     let current_formation := get_current_formation roster in
     if negb (FormationM.is_legal current_formation) then mret tt
     else
       on_optimizer (update_player_statuses fetch_player_page strptime_today
                       now_refresh);;
       optimal_swaps ← on_optimizer (call_find_optimal_swaps roster now_plan);
       match optimal_swaps with
       | [] => mret tt
       | _ =>
           raising (log_planned optimal_swaps);;
           execute_swaps optimal_swaps
       end) w.

(** [LineupOptimizer.optimize_lineup]: the handler of the outer [try] logs. *)
Definition optimize_lineup (now_refresh now_plan : Z) : W unit :=
  λ w,
    match optimize_lineup_body now_refresh now_plan w with
    | (Ok u, w') => (Ok u, w')
    | (Raise _, w') => (Ok tt, w')
    end.

End OptimizationLoop.

(** The swap call a proposal leads to, for rows that hold players. *)
Definition call_of (team : string) (p : proposal) : option swap_call :=
  sp ← player (proposal_starter p);
  bp ← player (proposal_bench p);
  Some (team, Player.id sp, Player.id bp).

(** ** Notions used to state what the planner proposes *)

(** The two kinds of justification the planner writes. *)
Definition direct_reason (r : string) : bool :=
  String.prefix "Direct position match" r.

Definition flexible_reason (r : string) : bool :=
  String.prefix "Position flexible swap" r.

(** What qualifies a bench player in pass 1 and in pass 2. *)
Definition later_game_candidate (current_time : Z) (bs : PlayerStatus) : Prop :=
  is_Some (game_time bs) ∧ PlayerStatusM.is_game_soon bs current_time = false.

Definition confirmed_starting (bs : PlayerStatus) : Prop :=
  is_starting bs = Some true.

(** A scan result, if any, is a row of [pool] whose status satisfies
    [good], passes the can-swap check with [starter], and is labelled
    according to its position. *)
Definition choice_ok (good : PlayerStatus → Prop) (self : LineupOptimizer)
    (current_formation : Formation) (starter : RosterRow) (pool : list entry)
    (best : option (RosterRow * string)) : Prop :=
  ∀ b r, best = Some (b, r) →
    ∃ bs, (b, Some bs) ∈ pool ∧ good bs ∧
          can_swap_players self starter b current_formation
            = Ok (true, "Swap is valid") ∧
          direct_reason r = same_position starter b ∧
          flexible_reason r = negb (same_position starter b).

(** A proposal the planner may return for [roster]: a starter of the roster
    confirmed not starting, a bench player of the roster qualified by one of
    the two passes, and a pair that passes the can-swap check against the
    roster's current formation. *)
Definition sound_proposal (self : LineupOptimizer) (roster : Roster)
    (current_time : Z) (p : proposal) : Prop :=
  proposal_starter p ∈ get_starters roster ∧
  proposal_bench p ∈ get_bench_players roster ∧
  (∃ sp ss, player (proposal_starter p) = Some sp ∧
            get_player_status self (Player.id sp) = Some ss ∧
            PlayerStatusM.is_confirmed_not_starting ss = true) ∧
  (∃ bp bs, player (proposal_bench p) = Some bp ∧
            get_player_status self (Player.id bp) = Some bs ∧
            (later_game_candidate current_time bs ∨ confirmed_starting bs)) ∧
  can_swap_players self (proposal_starter p) (proposal_bench p)
    (get_current_formation roster) = Ok (true, "Swap is valid") ∧
  direct_reason (proposal_reason p)
    = same_position (proposal_starter p) (proposal_bench p) ∧
  flexible_reason (proposal_reason p)
    = negb (same_position (proposal_starter p) (proposal_bench p)).

(** The pages [1 .. n] of the feed, as integers. *)
Definition page_numbers (n : Z) : list Z := seqZ 1 n.

(** The records of one page. *)
Definition page_records (d : Json.data) : list Json.player :=
  default [] (Json.statsTable d).

(** A string without the character [<]. *)
Fixpoint no_lt (s : string) : bool :=
  match s with
  | EmptyString => true
  | String c s' => negb (Ascii.eqb c "<"%char) && no_lt s'
  end.

(** The last record of a batch that carries the identifier [pid]. *)
Definition last_record (pid : string) (records : list Json.player)
  : option Json.player :=
  last (filter (λ p, Json.scorerId p = Some pid) records).

(** ** More concrete feeds *)

Module Feed.

(** The data of a page that declares [total] pages and carries [records]. *)
Definition page_data (total : Z) (records : list Json.player) : Json.data :=
  Json.mkData (Some (Json.mkPaginated None (Some total) None)) (Some records).

Definition body_of (d : Json.data) : Json.body :=
  Json.mkBody (Some [Json.mkResponse (Some d)]).

(** A feed of two pages. *)
Definition pages (p : Z) : Json.data :=
  if p =? 1 then page_data 2 [Example.rec_ok; Example.rec_malformed]
  else page_data 2 [Example.rec_last].

Definition bodies (p : Z) : Json.body := body_of (pages p).

Definition fetch_two_pages (p : Z) : result Json.body :=
  if (1 <=? p) && (p <=? 2) then Ok (bodies p)
  else Raise (RequestException "no such page").

(** A first page with records but without the pagination descriptor. *)
Definition unpaginated : Json.data :=
  Json.mkData None (Some [Example.rec_ok; Example.rec_last]).

Definition fetch_unpaginated (p : Z) : result Json.body :=
  Ok (body_of unpaginated).

End Feed.

(** ** A concrete cycle *)

Module Cycle.

(** Three in the afternoon of the day of [Example.now]. *)
Definition now_refresh : Z := seconds 1004400.
Definition now_plan : Z := now_refresh + seconds 1.

(** [d1] is on the bench of the 4 o'clock game; [b1] plays at 8. *)
Definition feed : Z → result Json.body :=
  Example.fetch_one_page
    [Json.mkPlayer (Some "d1") (Some "vs MUN<br/>4:00PM") (Some "11");
     Json.mkPlayer (Some "b1") (Some "vs ARS<br/>8:00PM") (Some "12")].

Definition roster_info (team : string) : result Roster := Ok Example.roster1.

(** A roster API that refuses every swap. *)
Definition swap_players_down (log : list swap_call) (call : swap_call)
  : result bool :=
  Raise (RequestException "service unavailable").

(** A roster with ten starters: no goalkeeper. *)
Definition short_roster_info (team : string) : result Roster :=
  Ok (mkRoster (tail Example.starters) [Example.b1]).

Definition world : World := mkWorld Example.self3 [].

End Cycle.

(** * Properties *)

(** ** Formation legality *)

(** C5: [is_legal] holds exactly when the four counts sum to 11 with one
    goalkeeper, 3 to 5 defenders, 2 to 5 midfielders and 1 to 3 forwards;
    so breaking any one clause makes it false.  (1,4,4,2) is legal and
    (1,4,4,3), with 12 players, is not. *)
Theorem is_legal_iff :
  (∀ f : Formation,
     FormationM.is_legal f = true ↔
     gk f + def_ f + mid f + fwd f = 11 ∧ gk f = 1 ∧
     3 ≤ def_ f ≤ 5 ∧ 2 ≤ mid f ≤ 5 ∧ 1 ≤ fwd f ≤ 3) ∧
  FormationM.is_legal (mkFormation 1 4 4 2) = true ∧
  FormationM.is_legal (mkFormation 1 4 4 3) = false.
Proof.
  split; [|split; reflexivity].
  intros [g d m w]. unfold FormationM.is_legal. simpl.
  rewrite !andb_true_iff, Z.eqb_eq, Z.eqb_eq, !Z.leb_le. lia.
Qed.

(** ** Player status *)

(** C7: [is_game_soon now] holds exactly when [game_time] is set and lies
    at most 7200 seconds after [now]; it is false without a [game_time],
    and a game already in the past counts as soon. *)
Theorem is_game_soon_iff (s : PlayerStatus) (now : Z) :
  (PlayerStatusM.is_game_soon s now = true ↔
   ∃ gt, game_time s = Some gt ∧ gt - now ≤ seconds 7200) ∧
  (game_time s = None → PlayerStatusM.is_game_soon s now = false) ∧
  (∀ gt, game_time s = Some gt → gt - now < 0 →
         PlayerStatusM.is_game_soon s now = true).
Proof.
  unfold PlayerStatusM.is_game_soon.
  destruct (game_time s) as [gt|]; simpl.
  - repeat split.
    + intros H%Z.leb_le. eauto.
    + intros (gt' & [= <-] & H). by apply Z.leb_le.
    + discriminate.
    + intros gt' [= <-] H. apply Z.leb_le. unfold seconds. lia.
  - repeat split; try done. intros (gt & H & _). discriminate.
Qed.

Lemma is_game_soon_iff_witness :
  PlayerStatusM.is_game_soon
    (mkPlayerStatus None None (Some (seconds 100)) true None) (seconds 500)
  = true.
Proof.
  apply (is_game_soon_iff
           (mkPlayerStatus None None (Some (seconds 100)) true None)
           (seconds 500)) with (gt := seconds 100).
  - reflexivity.
  - unfold seconds. lia.
Defined.

(** ** The can-swap check *)

Lemma locked_entry self p :
  has_locked_entry self p → locked (get_player_status self (Player.id p)) = true.
Proof. intros (st & Hst & Hl). unfold get_player_status. by rewrite Hst. Qed.

(** C6: a pair in which the starter, or the bench player, has a status
    entry with [is_locked] true is rejected, whatever the current formation
    is and so whether or not the simulated formation would be legal. *)
Theorem can_swap_players_rejects_locked
    (self : LineupOptimizer) (starter bench : RosterRow)
    (current_formation : Formation) (sp : Player.t) :
  player starter = Some sp →
  has_locked_entry self sp ∨
    (∃ bp, player bench = Some bp ∧ has_locked_entry self bp) →
  ∃ reason,
    can_swap_players self starter bench current_formation = Ok (false, reason).
Proof.
  intros Hsp Hlock. unfold can_swap_players, the_player. rewrite Hsp. simpl.
  destruct (locked (get_player_status self (Player.id sp))) eqn:Hs.
  - eauto.
  - destruct Hlock as [Hl | (bp & Hbp & Hl)].
    + apply locked_entry in Hl. congruence.
    + rewrite Hbp. simpl. rewrite (locked_entry _ _ Hl). eauto.
Qed.

(** C10: a player without a status entry is not subjected to the lock
    check: the outcome is then decided by the other player's lock and the
    simulated formation, and by the formation alone when neither player
    has an entry. *)
Theorem can_swap_players_unknown_status
    (self : LineupOptimizer) (starter bench : RosterRow)
    (current_formation : Formation) (sp bp : Player.t) :
  player starter = Some sp →
  player bench = Some bp →
  let verdict :=
    formation_verdict (formation_after_swap starter bench current_formation) in
  (get_player_status self (Player.id sp) = None →
   can_swap_players self starter bench current_formation =
   if locked (get_player_status self (Player.id bp))
   then Ok (false, bench_locked_reason bp) else Ok verdict) ∧
  (get_player_status self (Player.id bp) = None →
   can_swap_players self starter bench current_formation =
   if locked (get_player_status self (Player.id sp))
   then Ok (false, starter_locked_reason sp) else Ok verdict) ∧
  (get_player_status self (Player.id sp) = None →
   get_player_status self (Player.id bp) = None →
   can_swap_players self starter bench current_formation = Ok verdict ∧
   verdict.1 = FormationM.is_legal
                 (formation_after_swap starter bench current_formation)).
Proof.
  intros Hsp Hbp verdict. unfold can_swap_players, the_player.
  rewrite Hsp, Hbp. simpl. repeat split.
  - intros ->. reflexivity.
  - intros ->. simpl. by destruct (locked _).
  - rewrite H, H0. reflexivity.
  - unfold verdict, formation_verdict. by destruct (FormationM.is_legal _).
Qed.

Lemma can_swap_players_rejects_locked_witness :
  FormationM.is_legal
    (formation_after_swap Example.d1 Example.b1 (mkFormation 1 4 4 2)) = true ∧
  ∃ reason,
    can_swap_players Example.self3 Example.d1 Example.b1 (mkFormation 1 4 4 2)
    = Ok (false, reason).
Proof.
  split; [reflexivity|].
  apply (can_swap_players_rejects_locked Example.self3 Example.d1 Example.b1
           (mkFormation 1 4 4 2) (Player.mk "d1" "d1")).
  - reflexivity.
  - left. eexists. split; [vm_compute; reflexivity | reflexivity].
Defined.

Lemma can_swap_players_unknown_status_witness :
  can_swap_players Example.self3 Example.b1 Example.b2 (mkFormation 1 4 4 2)
  = Ok (true, "Swap is valid").
Proof.
  apply (can_swap_players_unknown_status Example.self3 Example.b1 Example.b2
           (mkFormation 1 4 4 2) (Player.mk "b1" "b1") (Player.mk "b2" "b2")).
  - reflexivity.
  - reflexivity.
  - vm_compute; reflexivity.
  - vm_compute; reflexivity.
Defined.

(** ** The swap planner *)

Lemma list_remove_elem {A : Type} `{EqDecision A} (x : A) (l : list A) :
  x ∈ l → ∃ l', list_remove x l = Ok l' ∧ l ≡ₚ x :: l'.
Proof.
  induction l as [|y l IH]; intros Hin.
  - by apply elem_of_nil in Hin.
  - simpl. destruct (decide (y = x)) as [->|Hne].
    + eauto.
    + apply elem_of_cons in Hin as [->|Hin]; [done|].
      destruct (IH Hin) as (l' & -> & Hp). simpl.
      exists (y :: l'). split; [done|].
      rewrite Hp. apply Permutation_swap.
Qed.

Lemma collect_wf self rows : Forall (wf_entry self) (collect self rows).
Proof.
  induction rows as [|r rows IH]; simpl; [constructor|].
  destruct (player r) as [p|] eqn:Hp; [|done].
  constructor; [|done]. exists p. simpl. done.
Qed.

Lemma collect_rows self rows :
  occupied_ids (collect self rows).*1 = occupied_ids rows.
Proof.
  unfold occupied_ids.
  induction rows as [|r rows IH]; simpl; [done|].
  destruct (player r) as [p|] eqn:Hp; simpl; rewrite ?Hp; simpl;
    [f_equal|]; exact IH.
Qed.

Lemma collect_occupied self rows :
  Forall (λ e : entry, is_Some (player e.1)) (collect self rows).
Proof.
  eapply Forall_impl; [apply collect_wf|].
  intros e (p & Hp & _). eauto.
Qed.

Lemma can_swap_players_total self starter bench f :
  is_Some (player starter) → is_Some (player bench) →
  ∃ v, can_swap_players self starter bench f = Ok v.
Proof.
  intros [sp Hsp] [bp Hbp]. unfold can_swap_players, the_player.
  rewrite Hsp, Hbp. simpl.
  destruct (locked _); [eauto|]. destruct (locked _); eauto.
Qed.

Section PlannerFacts.

Variable self : LineupOptimizer.
Variable current_time : Z.
Variable current_formation : Formation.

Lemma pass1_candidate_total starter ss acc cand :
  is_Some (player starter) → wf_entry self cand →
  ∃ acc',
    pass1_candidate self current_time current_formation starter ss acc cand
    = Ok acc' ∧
    (acc'.1 = acc.1 ∨ ∃ r, acc'.1 = Some (cand.1, r)).
Proof.
  intros Hst (bp & Hbp & _).
  destruct acc as [best latest], cand as [bench bs]. simpl in *.
  destruct bs as [bs|]; [|eauto].
  destruct (game_time bs) as [gt|]; [|eauto].
  destruct (PlayerStatusM.is_game_soon bs current_time); [eauto|].
  destruct (can_swap_players_total self starter bench current_formation)
    as ([can reason] & ->); [done|eauto|].
  simpl. destruct can; [|eauto].
  destruct (later_than latest gt); [|eauto].
  destruct (same_position starter bench); [eauto|].
  destruct (negb _); eauto.
Qed.

Lemma pass1_scan_total starter ss bench_players acc :
  is_Some (player starter) → Forall (wf_entry self) bench_players →
  ∃ acc',
    for_each (pass1_candidate self current_time current_formation starter ss)
             bench_players acc = Ok acc' ∧
    (acc'.1 = acc.1 ∨ picked_from bench_players acc'.1).
Proof.
  intros Hst Hwf. revert acc.
  induction Hwf as [|cand pool Hc Hwf IH]; intros acc; simpl.
  - eauto.
  - destruct (pass1_candidate_total starter ss acc cand Hst Hc)
      as (acc1 & -> & H1). simpl.
    destruct (IH acc1) as (acc' & -> & H2).
    exists acc'. split; [done|].
    destruct H2 as [H2|[H2|(b & r & s & H2 & Hin)]].
    + rewrite H2. destruct H1 as [H1|(r & H1)]; [by left|].
      right. right. exists cand.1, r, cand.2. split; [done|].
      destruct cand. simpl. apply list_elem_of_here.
    + right. by left.
    + right. right. exists b, r, s. split; [done|]. by apply list_elem_of_further.
Qed.

Lemma pass2_scan_total starter bench_players best :
  is_Some (player starter) → Forall (wf_entry self) bench_players →
  ∃ best',
    pass2_scan self current_formation starter bench_players best = Ok best' ∧
    (best' = best ∨ picked_from bench_players best').
Proof.
  intros Hst Hwf. revert best.
  induction Hwf as [|cand pool Hc Hwf IH]; intros best; simpl.
  - eauto.
  - assert (Hkeep : ∀ b0,
      (b0 = best ∨ ∃ r, b0 = Some (cand.1, r)) →
      ∃ best', pass2_scan self current_formation starter pool b0 = Ok best' ∧
               (best' = best ∨ picked_from (cand :: pool) best')).
    { intros b0 Hb0. destruct (IH b0) as (best' & -> & H2).
      exists best'. split; [done|].
      destruct H2 as [->|[H2|(b & r & s & H2 & Hin)]].
      - destruct Hb0 as [->|(r & ->)]; [by left|].
        right. right. exists cand.1, r, cand.2. split; [done|].
        destruct cand. apply list_elem_of_here.
      - right. by left.
      - right. right. exists b, r, s. split; [done|].
        by apply list_elem_of_further. }
    destruct cand as [bench bs]. simpl in *.
    destruct Hc as (bp & Hbp & _). simpl in Hbp.
    destruct (match bs with Some bs0 => _ | None => false end);
      [|apply Hkeep; by left].
    destruct (can_swap_players_total self starter bench current_formation)
      as ([can reason] & ->); [done|eauto|].
    simpl. destruct can; [|apply Hkeep; by left].
    destruct (same_position starter bench).
    + eexists. split; [done|]. right. right.
      exists bench, reason_direct_starter, bs. split; [done|].
      apply list_elem_of_here.
    + destruct (negb _); apply Hkeep; eauto.
Qed.

Lemma accept_inv pool st starter best :
  plan_inv self pool st → picked_from st.2 best →
  ∃ st', accept self st starter best = Ok st' ∧ plan_inv self pool st'.
Proof.
  intros [Hwf Hperm] [->|(b & r & s & -> & Hin)]; simpl.
  - exists st. split; [done|]. by split.
  - pose proof (proj1 (Forall_forall _ _) Hwf _ Hin) as (bp & Hbp & Hs).
    simpl in Hbp, Hs. unfold the_player. rewrite Hbp. simpl.
    rewrite <- Hs.
    destruct (list_remove_elem (b, s) st.2 Hin) as (pool' & -> & Hp).
    simpl. eexists. split; [done|]. split; simpl.
    + rewrite Hp in Hwf. by apply Forall_cons in Hwf as [_ ?].
    + rewrite <- Hperm, Hp. rewrite map_app. simpl.
      rewrite <- app_assoc. simpl. done.
Qed.

Lemma pass1_starter_inv pool st s :
  is_Some (player s.1) → plan_inv self pool st →
  ∃ st', pass1_starter self current_time current_formation st s = Ok st' ∧
         plan_inv self pool st'.
Proof.
  intros Hs Hinv. destruct s as [starter [ss|]]; simpl in *; [|eauto].
  destruct (PlayerStatusM.is_game_soon ss current_time); [|eauto].
  destruct (PlayerStatusM.is_confirmed_not_starting ss); [|eauto].
  destruct (pass1_scan_total starter ss st.2 (None, None) Hs (proj1 Hinv))
    as ([best latest] & -> & Hpick). simpl in *.
  apply accept_inv; [done|].
  destruct Hpick as [->|?]; [by left|done].
Qed.

Lemma pass2_starter_inv pool st s :
  is_Some (player s.1) → plan_inv self pool st →
  ∃ st', pass2_starter self current_formation st s = Ok st' ∧
         plan_inv self pool st'.
Proof.
  intros Hs Hinv. destruct s as [starter [ss|]]; simpl in *; [|eauto].
  destruct (PlayerStatusM.is_confirmed_not_starting ss); [|eauto].
  destruct (pass2_scan_total starter st.2 None Hs (proj1 Hinv))
    as (best & -> & Hpick). simpl.
  apply accept_inv; [done|].
  destruct Hpick as [->|?]; [by left|done].
Qed.

Lemma for_each_inv (body : plan → entry → result plan) pool starters st :
  (∀ st s, is_Some (player s.1) → plan_inv self pool st →
           ∃ st', body st s = Ok st' ∧ plan_inv self pool st') →
  Forall (λ e : entry, is_Some (player e.1)) starters →
  plan_inv self pool st →
  ∃ st', for_each body starters st = Ok st' ∧ plan_inv self pool st'.
Proof.
  intros Hbody Hocc. revert st.
  induction Hocc as [|s starters Hs Hocc IH]; intros st Hinv; simpl.
  - eauto.
  - destruct (Hbody st s Hs Hinv) as (st1 & -> & Hinv1). simpl. by apply IH.
Qed.

End PlannerFacts.

(** The planner never raises, and the bench rows it proposes are, with
    multiplicity, among the occupied bench rows of the roster. *)
Lemma find_optimal_swaps_total self roster current_time :
  ∃ swaps rest,
    find_optimal_swaps self roster current_time = Ok swaps ∧
    (map proposal_bench swaps ++ rest)%list
      ≡ₚ (collect self (get_bench_players roster)).*1.
Proof.
  unfold find_optimal_swaps.
  set (pool := (collect self (get_bench_players roster)).*1).
  assert (Hinv0 : plan_inv self pool ([], collect self (get_bench_players roster))).
  { split; simpl; [apply collect_wf | done]. }
  destruct (for_each_inv self
              (pass1_starter self current_time (get_current_formation roster))
              pool (collect self (get_starters roster)) _
              (pass1_starter_inv self current_time _ pool)
              (collect_occupied self _) Hinv0) as (st1 & -> & Hinv1).
  simpl.
  destruct (for_each_inv self
              (pass2_starter self (get_current_formation roster))
              pool (collect self (get_starters roster)) _
              (pass2_starter_inv self _ pool)
              (collect_occupied self _) Hinv1) as (st2 & -> & Hinv2).
  simpl. exists st2.1, st2.2.*1. split; [done|]. apply Hinv2.
Qed.

(** C4: when the roster lists no bench player twice, no bench player
    occurs in two proposals of one planning cycle: the planner returns a
    list of proposals, each promotes an occupied bench row, and the player
    identifiers of the promoted rows are pairwise distinct. *)
Theorem find_optimal_swaps_bench_once self roster current_time :
  NoDup (occupied_ids (get_bench_players roster)) →
  ∃ swaps,
    find_optimal_swaps self roster current_time = Ok swaps ∧
    Forall (λ p, is_Some (player (proposal_bench p))) swaps ∧
    NoDup (occupied_ids (map proposal_bench swaps)).
Proof.
  intros Hnd.
  destruct (find_optimal_swaps_total self roster current_time)
    as (swaps & rest & Hrun & Hperm).
  exists swaps. split; [done|]. split.
  - apply Forall_forall. intros p Hp.
    assert (Hin : proposal_bench p ∈ (collect self (get_bench_players roster)).*1).
    { rewrite <- Hperm. apply elem_of_app. left.
      apply list_elem_of_fmap. eauto. }
    apply list_elem_of_fmap in Hin as (e & H & He).
    pose proof (collect_occupied self (get_bench_players roster)) as Hocc.
    rewrite Forall_forall in Hocc. rewrite H. by apply Hocc.
  - rewrite <- (collect_rows self) in Hnd.
    unfold occupied_ids in *. rewrite <- Hperm, omap_app in Hnd.
    by apply NoDup_app in Hnd as [? _].
Qed.

Lemma find_optimal_swaps_bench_once_witness :
  ∃ swaps,
    find_optimal_swaps Example.self1 Example.roster1 Example.now = Ok swaps ∧
    Forall (λ p, is_Some (player (proposal_bench p))) swaps ∧
    NoDup (occupied_ids (map proposal_bench swaps)).
Proof.
  apply (find_optimal_swaps_bench_once
           Example.self1 Example.roster1 Example.now).
  vm_compute. apply NoDup_cons. split.
  - intros [H|H]%elem_of_cons; [discriminate|by apply elem_of_nil in H].
  - apply NoDup_singleton.
Defined.

(** C9: the planner is deterministic for a fixed clock reading: a call
    returns a list of proposals and leaves the optimizer as it found it, and
    a second call on the same roster right after it returns the same list. *)
Theorem find_optimal_swaps_deterministic roster current_time self :
  ∃ swaps,
    call_find_optimal_swaps roster current_time self = (Ok swaps, self) ∧
    call_find_optimal_swaps roster current_time
      (call_find_optimal_swaps roster current_time self).2 = (Ok swaps, self).
Proof.
  destruct (find_optimal_swaps_total self roster current_time)
    as (swaps & _ & Hrun & _).
  exists swaps. unfold call_find_optimal_swaps. simpl. by rewrite Hrun.
Qed.

(** C1, on the code: pass 2 visits every confirmed non-starter again, also
    one that pass 1 already gave a proposal.  Here [d1] is proposed twice,
    first with [b1] (later game), then with [b2] (confirmed starter). *)
Theorem find_optimal_swaps_same_starter_twice :
  find_optimal_swaps Example.self1 Example.roster1 Example.now =
  Ok [(Example.d1, Example.b1,
       "Direct position match - replacing confirmed non-starter (vs MUN) with player from later game (vs ARS)");
      (Example.d1, Example.b2,
       "Direct position match - replacing non-starter with confirmed starter")].
Proof. vm_compute. reflexivity. Qed.

(** C3, on the code: a cross-position candidate met first fixes
    [latest_game_time], and a same-position candidate met later with an
    earlier game no longer passes the time test.  Here the midfielder [x]
    is proposed for the defender [d1] although the defender [y] is a
    swap-legal candidate with a known, not-soon game time. *)
Theorem find_optimal_swaps_cross_position_chosen :
  find_optimal_swaps Example.self2 Example.roster2 Example.now =
  Ok [(Example.d1, Example.x,
       "Position flexible swap - replacing confirmed non-starter (vs MUN) with player from later game (vs LIV)")] ∧
  same_position Example.d1 Example.y = true ∧
  same_position Example.d1 Example.x = false ∧
  can_swap_players Example.self2 Example.d1 Example.y
    (get_current_formation Example.roster2) = Ok (true, "Swap is valid") ∧
  get_player_status Example.self2 "y" = Some (Example.later_game 300 "vs TOT") ∧
  PlayerStatusM.is_game_soon (Example.later_game 300 "vs TOT") Example.now = false ∧
  PlayerStatusM.is_game_soon Example.d1_status Example.now = true ∧
  PlayerStatusM.is_confirmed_not_starting Example.d1_status = true.
Proof. repeat split; vm_compute; reflexivity. Qed.

(** ** The status refresh *)

Section TrackerFacts.

Variable fetch_player_page : Z → result Json.body.
Variable strptime_today : Z → string → option Z.

Local Abbreviation run_records := (process_players strptime_today).
Local Abbreviation stored := (store_all strptime_today).
Local Abbreviation body :=
  (update_player_statuses_body fetch_player_page strptime_today).
Local Abbreviation update :=
  (update_player_statuses fetch_player_page strptime_today).

Lemma store_all_app now l1 l2 m :
  stored now (l1 ++ l2) m = stored now l2 (stored now l1 m).
Proof. unfold store_all. apply fold_left_app. Qed.

(** With every record identified, the record loop ends normally and has
    stored one entry per record, later records overwriting earlier ones. *)
Lemma process_players_ok now records self :
  Forall has_id records →
  ∃ self',
    run_records now records self = (Ok tt, self') ∧
    player_statuses self' = stored now records (player_statuses self).
Proof.
  intros Hids. revert self.
  induction Hids as [|p rest [i Hi] Hids IH]; intros self.
  - by exists self.
  - destruct (IH (mkLineupOptimizer (league_id self) (team_id self)
                    (<[i := status_of_record strptime_today now p]>
                       (player_statuses self))
                    (last_check_time self))) as (self' & Hrun & Hmap).
    exists self'. split.
    + simpl. unfold mbind, M_bind, process_player, lift, store_player_status.
      rewrite Hi. simpl. unfold mbind, M_bind. exact Hrun.
    + rewrite Hmap. simpl. by rewrite Hi.
Qed.

(** The record loop raises only at a record without an identifier, and
    has by then stored the entries of the records before it. *)
Lemma process_players_raise now records self e self' :
  run_records now records self = (Raise e, self') →
  ∃ done p rest,
    records = (done ++ p :: rest)%list ∧ Forall has_id done ∧
    Json.scorerId p = None ∧
    player_statuses self' = stored now done (player_statuses self).
Proof.
  revert self. induction records as [|p rest IH]; intros self Hrun.
  - discriminate.
  - simpl in Hrun.
    unfold mbind, M_bind, process_player, lift, store_player_status in Hrun.
    destruct (Json.scorerId p) as [i|] eqn:Hi; simpl in Hrun.
    + apply IH in Hrun as (done & q & rest' & -> & Hdone & Hq & Hmap).
      exists (p :: done), q, rest'. repeat split; try done.
      * constructor; [by exists i|done].
      * rewrite Hmap. simpl. by rewrite Hi.
    + injection Hrun as _ <-.
      exists [], p, rest. repeat split; try done.
Qed.

(** The [try] block, after the two assignments that precede the fetch. *)
Lemma body_unfold now self :
  body now self =
  let cleared :=
    mkLineupOptimizer (league_id self) (team_id self) ∅ (Some now) in
  match fetch_all_players fetch_player_page with
  | Ok all_players => run_records now all_players cleared
  | Raise e => (Raise e, cleared)
  end.
Proof.
  unfold update_player_statuses_body, mbind, M_bind, set_last_check_time,
    clear_player_statuses, lift. simpl.
  by destruct (fetch_all_players fetch_player_page).
Qed.

(** C2, as the code has it: an error raised during the fetch-and-parse
    sequence is caught, so the call ends normally; the status map it
    leaves is the one rebuilt from empty up to the error, whatever the
    map was before: empty when fetching the pages fails, and otherwise
    the entries of the records before the first one without identifier. *)
Theorem update_player_statuses_failed now self e self' :
  body now self = (Raise e, self') →
  update now self = (Ok tt, self') ∧
  ((fetch_all_players fetch_player_page = Raise e ∧
    player_statuses self' = ∅) ∨
   (∃ done p rest,
      fetch_all_players fetch_player_page = Ok (done ++ p :: rest)%list ∧
      Forall has_id done ∧ Json.scorerId p = None ∧
      player_statuses self' = stored now done ∅)).
Proof.
  intros Hbody. split.
  - unfold update_player_statuses, try_except. by rewrite Hbody.
  - rewrite body_unfold in Hbody. simpl in Hbody.
    destruct (fetch_all_players fetch_player_page) as [all|e'].
    + right. apply process_players_raise in Hbody
        as (done & p & rest & -> & ? & ? & Hmap).
      exists done, p, rest. by rewrite Hmap.
    + left. by injection Hbody as -> <-.
Qed.

(** C8: a record whose opponent composite does not split into exactly two
    parts gets a status with [opponent] and [game_time] unset; with the
    pages fetched and every record identified, the refresh raises nothing
    and stores the entry of every record of the batch, in feed order. *)
Theorem update_player_statuses_malformed_opponent
    now self before r after pid :
  fetch_all_players fetch_player_page = Ok (before ++ r :: after)%list →
  Json.scorerId r = Some pid →
  malformed_opponent r →
  Forall has_id (before ++ after)%list →
  let st := status_of_record strptime_today now r in
  opponent st = None ∧ game_time st = None ∧ is_locked st = false ∧
  ∃ self',
    body now self = (Ok tt, self') ∧
    update now self = (Ok tt, self') ∧
    player_statuses self' =
      stored now after (<[pid := st]> (stored now before ∅)) ∧
    (Forall (λ p, Json.scorerId p ≠ Some pid) after →
     player_statuses self' !! pid = Some st).
Proof.
  intros Hfetch Hpid (composite & Hopp & Hlen) Hids st.
  assert (Hparse : parse_opponent strptime_today now r = (None, None)).
  { unfold parse_opponent. rewrite Hopp.
    destruct (split composite "<br/>") as [|a [|b [|c l]]]; try done. }
  assert (Hst : opponent st = None ∧ game_time st = None ∧ is_locked st = false).
  { unfold st, status_of_record. rewrite Hparse.
    by destruct (starting_benched _). }
  destruct Hst as (Ho & Hg & Hl). repeat (split; [done|]).
  assert (Hall : Forall has_id (before ++ r :: after)%list).
  { apply Forall_app in Hids as [? ?]. apply Forall_app. split; [done|].
    constructor; [by exists pid|done]. }
  destruct (process_players_ok now _
              (mkLineupOptimizer (league_id self) (team_id self) ∅ (Some now))
              Hall) as (self' & Hrun & Hmap).
  assert (Hbody : body now self = (Ok tt, self')).
  { rewrite body_unfold. simpl. by rewrite Hfetch. }
  assert (Hfinal : player_statuses self' =
            stored now after (<[pid := st]> (stored now before ∅))).
  { rewrite Hmap. simpl. rewrite store_all_app. simpl. by rewrite Hpid. }
  exists self'. split; [done|]. split.
  { unfold update_player_statuses, try_except. by rewrite Hbody. }
  split; [done|].
  intros Hother. rewrite Hfinal.
  generalize (<[pid := st]> (stored now before ∅)), (lookup_insert_eq
    (stored now before ∅) pid st).
  clear -Hother. induction Hother as [|p after Hp Hother IH]; intros m Hm.
  - done.
  - simpl. apply IH. destruct (Json.scorerId p) as [i|]; [|done].
    rewrite lookup_insert_ne; [done|congruence].
Qed.

End TrackerFacts.

(** C2, as stated, fails: with the feed unreachable the call ends normally
    but the status map, which held three entries, is left empty. *)
Lemma failed_refresh_empties_status_map :
  (update_player_statuses_body Example.fetch_down Example.strptime_today
     Example.now Example.self1).1
    = Raise (RequestException "connection refused") ∧
  (update_player_statuses Example.fetch_down Example.strptime_today
     Example.now Example.self1).1 = Ok tt ∧
  player_statuses Example.self1 !! "d1" = Some Example.d1_status ∧
  player_statuses
    (update_player_statuses Example.fetch_down Example.strptime_today
       Example.now Example.self1).2 = ∅ ∧
  player_statuses
    (update_player_statuses Example.fetch_down Example.strptime_today
       Example.now Example.self1).2 ≠ player_statuses Example.self1.
Proof.
  repeat split; try (vm_compute; reflexivity).
  intros H. apply (f_equal (λ m : gmap string PlayerStatus, m !! "d1")) in H.
  vm_compute in H. discriminate.
Qed.

Lemma update_player_statuses_failed_witness :
  let feed :=
    Example.fetch_one_page
      [Example.rec_ok; Example.rec_no_id; Example.rec_last] in
  let self' :=
    (update_player_statuses_body feed Example.strptime_today
       Example.now Example.self1).2 in
  update_player_statuses feed Example.strptime_today Example.now Example.self1
    = (Ok tt, self') ∧
  ((fetch_all_players feed = Raise (KeyError "scorerId") ∧
    player_statuses self' = ∅) ∨
   (∃ done p rest,
      fetch_all_players feed = Ok (done ++ p :: rest)%list ∧
      Forall has_id done ∧ Json.scorerId p = None ∧
      player_statuses self' =
        store_all Example.strptime_today Example.now done ∅)).
Proof.
  intros feed self'.
  apply (update_player_statuses_failed feed Example.strptime_today
           Example.now Example.self1 (KeyError "scorerId") self').
  vm_compute. reflexivity.
Defined.

Lemma update_player_statuses_malformed_opponent_witness :
  let feed :=
    Example.fetch_one_page
      [Example.rec_ok; Example.rec_malformed; Example.rec_last] in
  let st :=
    status_of_record Example.strptime_today Example.now Example.rec_malformed in
  opponent st = None ∧ game_time st = None ∧ is_locked st = false ∧
  ∃ self',
    update_player_statuses_body feed Example.strptime_today
      Example.now Example.self1 = (Ok tt, self') ∧
    update_player_statuses feed Example.strptime_today
      Example.now Example.self1 = (Ok tt, self') ∧
    player_statuses self' =
      store_all Example.strptime_today Example.now [Example.rec_last]
        (<["p2" := st]>
           (store_all Example.strptime_today Example.now [Example.rec_ok] ∅)) ∧
    (Forall (λ p, Json.scorerId p ≠ Some "p2") [Example.rec_last] →
     player_statuses self' !! "p2" = Some st).
Proof.
  intros feed.
  apply (update_player_statuses_malformed_opponent feed Example.strptime_today
           Example.now Example.self1 [Example.rec_ok] Example.rec_malformed
           [Example.rec_last] "p2").
  - vm_compute. reflexivity.
  - reflexivity.
  - exists "vs ARS 8:00PM". split; [reflexivity|]. vm_compute. lia.
  - repeat constructor; by eexists.
Defined.

(** * Further properties of the optimizer *)

(** ** Statuses built by the refresh *)

(** X1: A status built from a feed record reads as confirmed not starting
    exactly for the status code 11 (bench), and as confirmed starting
    exactly for the code 10; any other code, or none, leaves both unknown. *)
Theorem status_of_record_codes strptime_today now (p : Json.player) :
  let st := status_of_record strptime_today now p in
  (PlayerStatusM.is_confirmed_not_starting st = true ↔
   Json.miscDisplayType p = Some "11") ∧
  (is_starting st = Some true ↔ Json.miscDisplayType p = Some "10") ∧
  (Json.miscDisplayType p ≠ Some "10" → Json.miscDisplayType p ≠ Some "11" →
   is_starting st = None ∧ is_benched st = None).
Proof.
  unfold status_of_record, PlayerStatusM.is_confirmed_not_starting.
  destruct (parse_opponent _ _ _) as [o g].
  unfold starting_benched.
  destruct (Json.miscDisplayType p) as [code|]; simpl; [|done].
  destruct (String.eqb_spec code "10") as [->|H10]; simpl; [done|].
  destruct (String.eqb_spec code "11") as [->|H11]; simpl; [done|].
  repeat split; try done; intros [= ?]; done.
Qed.

Lemma status_of_record_codes_witness :
  is_starting (status_of_record Example.strptime_today Example.now
                 Example.rec_last) = None ∧
  is_benched (status_of_record Example.strptime_today Example.now
                Example.rec_last) = None.
Proof.
  apply (status_of_record_codes Example.strptime_today Example.now
           Example.rec_last); discriminate.
Defined.

(** X2: A status built by a refresh at [now] is locked exactly when its game
    starts at most one minute after [now]; a locked status counts as game
    soon at [now] and at every later time. *)
Theorem status_of_record_locked strptime_today now (p : Json.player) :
  let st := status_of_record strptime_today now p in
  (is_locked st = true ↔ ∃ gt, game_time st = Some gt ∧ gt - now ≤ minutes 1) ∧
  (is_locked st = true →
   ∀ t, now ≤ t → PlayerStatusM.is_game_soon st t = true).
Proof.
  unfold status_of_record, PlayerStatusM.is_game_soon.
  destruct (parse_opponent _ _ _) as [o g].
  destruct (starting_benched _) as [s b]. simpl.
  unfold locked_at. destruct g as [gt|]; simpl.
  - rewrite Z.leb_le. repeat split.
    + intros H. exists gt. split; [done|lia].
    + intros (gt' & [= <-] & H). lia.
    + intros H t Ht. apply Z.leb_le. unfold minutes, seconds in *. lia.
  - repeat split; try done. intros (gt & H & _). done.
Qed.

Lemma status_of_record_locked_witness :
  PlayerStatusM.is_game_soon
    (status_of_record Example.strptime_today (seconds 57600) Example.rec_ok)
    (seconds 60000) = true.
Proof.
  apply (status_of_record_locked Example.strptime_today (seconds 57600)
           Example.rec_ok).
  - vm_compute. reflexivity.
  - unfold seconds. lia.
Defined.

(** ** Formations and position counts *)

Lemma is_legal_bounds (f : Formation) :
  FormationM.is_legal f = true →
  gk f + def_ f + mid f + fwd f = 11 ∧ gk f = 1 ∧
  3 ≤ def_ f ≤ 5 ∧ 2 ≤ mid f ≤ 5 ∧ 1 ≤ fwd f ≤ 3.
Proof.
  unfold FormationM.is_legal.
  rewrite !andb_true_iff, !Z.eqb_eq, !Z.leb_le. lia.
Qed.

(** Case analysis on a position code: one of the four known codes, or
    another string. *)
Ltac case_position p :=
  let H := fresh "Hpos" in
  destruct (String.eqb_spec p "G") as [H|?];
  [|destruct (String.eqb_spec p "D") as [H|?];
    [|destruct (String.eqb_spec p "M") as [H|?];
      [|destruct (String.eqb_spec p "F") as [H|?]]]];
  try rewrite H in *.

Lemma count_pos_nonneg p rows : 0 ≤ count_pos p rows.
Proof.
  induction rows as [|r rows IH]; simpl; [done|].
  destruct (String.eqb _ _); lia.
Qed.

Lemma fold_count_row rows f :
  fold_left count_row rows f =
  mkFormation (gk f + count_pos "G" rows) (def_ f + count_pos "D" rows)
              (mid f + count_pos "M" rows) (fwd f + count_pos "F" rows).
Proof.
  revert f. induction rows as [|r rows IH]; intros [g d m w]; simpl.
  - f_equal; lia.
  - rewrite IH. unfold count_row.
    case_position (short_name (pos r)); simpl; f_equal; lia.
Qed.

Lemma count_pos_total rows :
  count_pos "G" rows + count_pos "D" rows + count_pos "M" rows
    + count_pos "F" rows ≤ Z.of_nat (length rows).
Proof.
  induction rows as [|r rows IH]; simpl length; simpl count_pos; [done|].
  case_position (short_name (pos r)); simpl; lia.
Qed.

(** X3: [get_current_formation] counts, for each of G, D, M and F, the starter
    rows at that position, with or without a player; rows at any other
    position are not counted, so the four counts sum to at most the number
    of starter rows. *)
Theorem get_current_formation_counts (roster : Roster) :
  let f := get_current_formation roster in
  gk f = count_pos "G" (get_starters roster) ∧
  def_ f = count_pos "D" (get_starters roster) ∧
  mid f = count_pos "M" (get_starters roster) ∧
  fwd f = count_pos "F" (get_starters roster) ∧
  0 ≤ gk f ∧ 0 ≤ def_ f ∧ 0 ≤ mid f ∧ 0 ≤ fwd f ∧
  gk f + def_ f + mid f + fwd f ≤ Z.of_nat (length (get_starters roster)).
Proof.
  unfold get_current_formation. rewrite fold_count_row. simpl.
  repeat split; try apply count_pos_nonneg.
  apply count_pos_total.
Qed.

Lemma initial_counts_lookup p :
  (list_to_map [("G", 0); ("D", 0); ("M", 0); ("F", 0)] : gmap string Z) !! p =
  if known_position p then Some 0 else None.
Proof.
  unfold known_position. rewrite !list_to_map_cons, list_to_map_nil.
  case_position p; simpl; try (vm_compute; reflexivity).
  by rewrite !lookup_insert_ne, lookup_empty.
Qed.

Lemma fold_count_position rows (counts : gmap string Z) (base : string → Z) :
  (∀ p, counts !! p = if known_position p then Some (base p) else None) →
  ∀ p, fold_left count_position rows counts !! p =
       if known_position p then Some (base p + count_pos p (occupied rows))
       else None.
Proof.
  revert counts base. induction rows as [|r rows IH]; intros counts base Hc p.
  - simpl. rewrite Hc. destruct (known_position p); [f_equal; lia|done].
  - simpl. unfold count_position at 2.
    destruct (player r) as [pl|]; [|by apply IH].
    set (p0 := short_name (pos r)).
    pose proof (Hc p0) as Hp0.
    destruct (known_position p0) eqn:Hk0; rewrite Hp0.
    + rewrite (IH _ (λ q, base q + if String.eqb p0 q then 1 else 0)).
      * simpl. fold p0. destruct (known_position p); [f_equal; lia|done].
      * intros q. destruct (String.eqb_spec p0 q) as [<-|Hne].
        -- by rewrite lookup_insert_eq, Hk0.
        -- rewrite lookup_insert_ne by done. rewrite Hc.
           destruct (known_position q); [f_equal; lia|done].
    + rewrite (IH _ base Hc). simpl. fold p0.
      destruct (known_position p) eqn:Hk; [|done].
      destruct (String.eqb_spec p0 p) as [Heq|_]; [congruence|done].
Qed.

(** X4: [get_position_counts] always has exactly the keys G, D, M and F, and
    the count under each is the number of rows at that position that hold
    a player; empty rows and rows at other positions are left out. *)
Theorem get_position_counts_lookup (roster_rows : list RosterRow) (p : string) :
  get_position_counts roster_rows !! p =
  if known_position p then Some (count_pos p (occupied roster_rows)) else None.
Proof.
  unfold get_position_counts.
  rewrite (fold_count_position roster_rows _ (λ _, 0) initial_counts_lookup).
  by destruct (known_position p).
Qed.

Lemma occupied_all rows :
  Forall (λ r, is_Some (player r)) rows → occupied rows = rows.
Proof.
  induction 1 as [|r rows [pl Hr] _ IH]; simpl; [done|]. by rewrite Hr, IH.
Qed.

(** X5: When every starter row holds a player, the position counts of the
    starters are the four counts of the current formation. *)
Theorem get_position_counts_formation (roster : Roster) :
  Forall (λ r, is_Some (player r)) (get_starters roster) →
  let counts := get_position_counts (get_starters roster) in
  let f := get_current_formation roster in
  counts !! "G" = Some (gk f) ∧ counts !! "D" = Some (def_ f) ∧
  counts !! "M" = Some (mid f) ∧ counts !! "F" = Some (fwd f).
Proof.
  intros Hocc. simpl. unfold get_position_counts.
  rewrite !(fold_count_position _ _ (λ _, 0) initial_counts_lookup). simpl.
  rewrite (occupied_all _ Hocc).
  unfold get_current_formation. rewrite fold_count_row. simpl. done.
Qed.

Lemma get_position_counts_formation_witness :
  get_position_counts Example.starters !! "D" = Some 4.
Proof.
  apply (get_position_counts_formation Example.roster1).
  repeat constructor; by eexists.
Defined.

(** ** The can-swap check and the formation *)

Lemma formation_after_swap_same starter bench f :
  same_position starter bench = true → formation_after_swap starter bench f = f.
Proof.
  unfold same_position, formation_after_swap, leave_lineup, enter_lineup.
  intros Heq%String.eqb_eq. rewrite <- Heq. destruct f as [g d m w].
  case_position (short_name (pos starter)); simpl; try done; f_equal; lia.
Qed.

(** X6: Swapping two unlocked players of the same position leaves the formation
    as it is, so the check answers with the legality of the current
    formation: the swap is valid exactly when the current formation is
    legal. *)
Theorem can_swap_players_same_position
    (self : LineupOptimizer) (starter bench : RosterRow)
    (current_formation : Formation) (sp bp : Player.t) :
  player starter = Some sp → player bench = Some bp →
  locked (get_player_status self (Player.id sp)) = false →
  locked (get_player_status self (Player.id bp)) = false →
  same_position starter bench = true →
  can_swap_players self starter bench current_formation
    = Ok (formation_verdict current_formation) ∧
  (FormationM.is_legal current_formation = true ↔
   can_swap_players self starter bench current_formation
     = Ok (true, "Swap is valid")).
Proof.
  intros Hsp Hbp Hls Hlb Hsame.
  assert (Hrun : can_swap_players self starter bench current_formation
                 = Ok (formation_verdict current_formation)).
  { unfold can_swap_players, the_player. rewrite Hsp, Hbp. simpl.
    rewrite Hls, Hlb. by rewrite formation_after_swap_same. }
  split; [done|]. rewrite Hrun. unfold formation_verdict.
  destruct (FormationM.is_legal current_formation); simpl; split; done.
Qed.

Lemma can_swap_players_same_position_witness :
  can_swap_players Example.self1 Example.d1 Example.b1 (mkFormation 1 4 4 2)
  = Ok (true, "Swap is valid").
Proof.
  apply (can_swap_players_same_position Example.self1 Example.d1 Example.b1
           (mkFormation 1 4 4 2) (Player.mk "d1" "d1") (Player.mk "b1" "b1"));
    reflexivity.
Defined.

(** A swap the check accepts leaves a legal formation. *)
Lemma can_swap_players_valid self starter bench f reason :
  can_swap_players self starter bench f = Ok (true, reason) →
  reason = "Swap is valid" ∧
  is_Some (player starter) ∧ is_Some (player bench) ∧
  FormationM.is_legal (formation_after_swap starter bench f) = true.
Proof.
  unfold can_swap_players, the_player.
  destruct (player starter) as [sp|]; simpl; [|done].
  destruct (locked _); [done|].
  destruct (player bench) as [bp|]; simpl; [|done].
  destruct (locked _); [done|].
  unfold formation_verdict.
  destruct (FormationM.is_legal _); simpl; [|done].
  intros [= <-]. eauto.
Qed.

(** X7: With a legal current formation, an accepted swap never trades a
    goalkeeper for an outfield player or the reverse, and never pairs a
    player at one of the positions G, D, M, F with one at another code. *)
Theorem can_swap_players_keeps_goalkeeper
    (self : LineupOptimizer) (starter bench : RosterRow)
    (current_formation : Formation) (reason : string) :
  FormationM.is_legal current_formation = true →
  can_swap_players self starter bench current_formation = Ok (true, reason) →
  String.eqb (short_name (pos starter)) "G"
    = String.eqb (short_name (pos bench)) "G" ∧
  known_position (short_name (pos starter))
    = known_position (short_name (pos bench)).
Proof.
  intros Hcur%is_legal_bounds (_ & _ & _ & Hnew%is_legal_bounds)%can_swap_players_valid.
  revert Hnew. destruct current_formation as [g d m w]. simpl in Hcur.
  unfold formation_after_swap, leave_lineup, enter_lineup, known_position.
  case_position (short_name (pos starter));
    case_position (short_name (pos bench)); simpl; intros Hnew;
    first [done | lia].
Qed.

Lemma can_swap_players_keeps_goalkeeper_witness :
  String.eqb (short_name (pos Example.d1)) "G"
    = String.eqb (short_name (pos Example.x)) "G" ∧
  known_position (short_name (pos Example.d1))
    = known_position (short_name (pos Example.x)).
Proof.
  apply (can_swap_players_keeps_goalkeeper Example.self2 Example.d1 Example.x
           (mkFormation 1 4 4 2) "Swap is valid"); vm_compute; reflexivity.
Defined.

(** ** What the planner proposes *)

Lemma collect_elem self rows row s :
  (row, s) ∈ collect self rows →
  row ∈ rows ∧ ∃ p, player row = Some p ∧ s = get_player_status self (Player.id p).
Proof.
  induction rows as [|r rows IH]; simpl.
  - intros H. by apply elem_of_nil in H.
  - destruct (player r) as [p|] eqn:Hp.
    + intros [[= -> ->]|H]%elem_of_cons.
      * split; [apply list_elem_of_here|eauto].
      * destruct (IH H) as [? ?]. split; [by apply list_elem_of_further|done].
    + intros H. destruct (IH H) as [? ?].
      split; [by apply list_elem_of_further|done].
Qed.

Lemma collect_fst self rows : (collect self rows).*1 = occupied rows.
Proof.
  induction rows as [|r rows IH]; simpl; [done|].
  destruct (player r); simpl; [f_equal|]; exact IH.
Qed.

Lemma list_remove_subset {A : Type} `{EqDecision A} (x : A) (l l' : list A) :
  list_remove x l = Ok l' → ∀ e, e ∈ l' → e ∈ l.
Proof.
  revert l'. induction l as [|y l IH]; intros l'; simpl; [done|].
  destruct (decide (y = x)) as [->|Hne].
  - intros [= <-] e He. by apply list_elem_of_further.
  - destruct (list_remove x l) as [l''|] eqn:Hrm; simpl; [|done].
    intros [= <-] e [->|He]%elem_of_cons.
    + apply list_elem_of_here.
    + apply list_elem_of_further. by apply (IH l'').
Qed.

Lemma for_each_preserves {A B : Type} (body : A → B → result A)
    (I : A → Prop) (l : list B) :
  (∀ a b a', b ∈ l → I a → body a b = Ok a' → I a') →
  ∀ a a', I a → for_each body l a = Ok a' → I a'.
Proof.
  induction l as [|b l IH]; intros Hbody a a' Ha; simpl.
  - by intros [= <-].
  - destruct (body a b) as [a1|] eqn:Hb; simpl; [|done].
    apply IH.
    + intros a0 b0 a0' Hb0. apply Hbody. by apply list_elem_of_further.
    + eapply Hbody; [apply list_elem_of_here|done..].
Qed.

Section PlannerSound.

Variable self : LineupOptimizer.
Variable current_time : Z.
Variable current_formation : Formation.

Lemma pass1_candidate_choice starter ss pool acc cand acc' :
  cand ∈ pool →
  choice_ok (later_game_candidate current_time) self current_formation
    starter pool acc.1 →
  pass1_candidate self current_time current_formation starter ss acc cand
    = Ok acc' →
  choice_ok (later_game_candidate current_time) self current_formation
    starter pool acc'.1.
Proof.
  intros Hin Hacc. destruct acc as [best latest], cand as [bench bs].
  simpl in *.
  destruct bs as [bs|]; [|by intros [= <-]].
  destruct (game_time bs) as [gt|] eqn:Hgt; [|by intros [= <-]].
  destruct (PlayerStatusM.is_game_soon bs current_time) eqn:Hsoon;
    [by intros [= <-]|].
  destruct (can_swap_players self starter bench current_formation)
    as [[can reason]|] eqn:Hcs; simpl; [|done].
  destruct can; [|by intros [= <-]].
  destruct (can_swap_players_valid _ _ _ _ _ Hcs) as (-> & _).
  destruct (later_than latest gt); [|by intros [= <-]].
  destruct (same_position starter bench) eqn:Hsame.
  - intros [= <-]. intros b r [= <- <-]. exists bs.
    split; [done|]. split; [split; [by rewrite Hgt|done]|].
    rewrite Hsame. by repeat split.
  - destruct (negb _); intros [= <-]; [|done].
    intros b r [= <- <-]. exists bs.
    split; [done|]. split; [split; [by rewrite Hgt|done]|].
    rewrite Hsame. by repeat split.
Qed.

Lemma pass2_scan_choice starter pool l best best' :
  (∀ e, e ∈ l → e ∈ pool) →
  choice_ok confirmed_starting self current_formation starter pool best →
  pass2_scan self current_formation starter l best = Ok best' →
  choice_ok confirmed_starting self current_formation starter pool best'.
Proof.
  revert best. induction l as [|[bench bs] l IH]; intros best Hsub Hbest; simpl.
  - by intros [= <-].
  - assert (Hsub' : ∀ e, e ∈ l → e ∈ pool).
    { intros e He. apply Hsub. by apply list_elem_of_further. }
    destruct bs as [bs|]; [|by apply IH].
    destruct (is_starting bs) as [[|]|] eqn:Hst; try by apply IH.
    destruct (can_swap_players self starter bench current_formation)
      as [[can reason]|] eqn:Hcs; simpl; [|done].
    destruct can; [|by apply IH].
    destruct (can_swap_players_valid _ _ _ _ _ Hcs) as (-> & _).
    assert (Hthis : ∀ r,
      direct_reason r = same_position starter bench →
      flexible_reason r = negb (same_position starter bench) →
      choice_ok confirmed_starting self current_formation starter pool
        (Some (bench, r))).
    { intros r Hd Hf b r' [= <- <-]. exists bs.
      split; [apply Hsub, list_elem_of_here|]. by repeat split. }
    destruct (same_position starter bench) eqn:Hsame.
    + intros [= <-]. by apply Hthis.
    + destruct (negb (bool_decide (is_Some best))); apply IH; try done.
      by apply Hthis.
Qed.

Lemma accept_sound st starter best st' :
  accept self st starter best = Ok st' →
  (best = None ∧ st' = st) ∨
  (∃ b r, best = Some (b, r) ∧
          st'.1 = (st.1 ++ [(starter, b, r)])%list ∧
          ∀ e, e ∈ st'.2 → e ∈ st.2).
Proof.
  destruct best as [[b r]|]; simpl; [|intros [= <-]; by left].
  destruct (the_player b) as [bp|]; simpl; [|done].
  destruct (list_remove _ _) as [pool'|] eqn:Hrm; simpl; [|done].
  intros [= <-]. right. exists b, r. repeat split; try done.
  simpl. by apply (list_remove_subset _ _ _ Hrm).
Qed.

End PlannerSound.

Section PlannerSoundRoster.

Variable self : LineupOptimizer.
Variable roster : Roster.
Variable current_time : Z.

Local Abbreviation bench_pool := (collect self (get_bench_players roster)).
Local Abbreviation sound_plan :=
  (λ st : plan,
     Forall (sound_proposal self roster current_time) st.1 ∧
     ∀ e, e ∈ st.2 → e ∈ bench_pool).

(** A qualified choice for a confirmed non-starter of the roster, once
    accepted, extends a sound plan to a sound plan. *)
Lemma accept_sound_plan (good : PlayerStatus → Prop) st starter ss best st' :
  (∀ bs, good bs →
         later_game_candidate current_time bs ∨ confirmed_starting bs) →
  (starter, Some ss) ∈ collect self (get_starters roster) →
  PlayerStatusM.is_confirmed_not_starting ss = true →
  sound_plan st →
  choice_ok good self (get_current_formation roster) starter st.2 best →
  accept self st starter best = Ok st' →
  sound_plan st'.
Proof.
  intros Hgood Hstarter Hconf [Hswaps Hpool] Hbest Hacc.
  apply accept_sound in Hacc as [[-> ->]|(b & r & -> & Hs & Hsub)]; [done|].
  split; [|intros e He; by apply Hpool, Hsub].
  rewrite Hs. apply Forall_app. split; [done|]. constructor; [|constructor].
  destruct (Hbest b r eq_refl) as (bs & Hin & Hbs & Hcs & Hd & Hf).
  apply collect_elem in Hstarter as (Hsin & sp & Hsp & Hss).
  apply Hpool, collect_elem in Hin as (Hbin & bp & Hbp & Hbst).
  unfold sound_proposal, proposal_starter, proposal_bench, proposal_reason.
  simpl. repeat split; try done.
  - exists sp, ss. by rewrite <- Hss.
  - exists bp, bs. rewrite <- Hbst. eauto.
Qed.

Lemma pass1_starter_sound st s st' :
  s ∈ collect self (get_starters roster) → sound_plan st →
  pass1_starter self current_time (get_current_formation roster) st s = Ok st' →
  sound_plan st'.
Proof.
  intros Hs Hinv. destruct s as [starter [ss|]]; simpl; [|by intros [= <-]].
  destruct (PlayerStatusM.is_game_soon ss current_time); [|by intros [= <-]].
  destruct (PlayerStatusM.is_confirmed_not_starting ss) eqn:Hconf;
    [|by intros [= <-]].
  destruct (for_each (pass1_candidate self current_time
                        (get_current_formation roster) starter ss)
              st.2 (None, None)) as [[best latest]|] eqn:Hscan;
    simpl; [|done].
  apply (accept_sound_plan (later_game_candidate current_time) st starter ss);
    try done; [by left|].
  apply (for_each_preserves _
           (λ acc, choice_ok (later_game_candidate current_time) self
                     (get_current_formation roster) starter st.2 acc.1)
           st.2) in Hscan; try done.
  intros a b a' Hb Ha Hstep.
  by apply (pass1_candidate_choice self current_time _ starter ss st.2 a b a').
Qed.

Lemma pass2_starter_sound st s st' :
  s ∈ collect self (get_starters roster) → sound_plan st →
  pass2_starter self (get_current_formation roster) st s = Ok st' →
  sound_plan st'.
Proof.
  intros Hs Hinv. destruct s as [starter [ss|]]; simpl; [|by intros [= <-]].
  destruct (PlayerStatusM.is_confirmed_not_starting ss) eqn:Hconf;
    [|by intros [= <-]].
  destruct (pass2_scan _ _ _ st.2 None) as [best|] eqn:Hscan; simpl; [|done].
  apply (accept_sound_plan confirmed_starting st starter ss);
    try done; [by right|].
  by apply (pass2_scan_choice self _ starter st.2 st.2 None best).
Qed.

Lemma planned_swaps_sound :
  ∃ swaps,
    find_optimal_swaps self roster current_time = Ok swaps ∧
    Forall (sound_proposal self roster current_time) swaps.
Proof.
  destruct (find_optimal_swaps_total self roster current_time)
    as (swaps & _ & Hrun & _).
  exists swaps. split; [done|].
  unfold find_optimal_swaps in Hrun.
  destruct (for_each (pass1_starter _ _ _) _ _) as [st1|] eqn:H1;
    simpl in Hrun; [|done].
  destruct (for_each (pass2_starter _ _) _ _) as [st2|] eqn:H2;
    simpl in Hrun; [|done].
  injection Hrun as <-.
  apply (for_each_preserves _ sound_plan) in H1.
  - apply (for_each_preserves _ sound_plan) in H2; [apply H2| |done].
    intros a b a' Hb Ha. by apply pass2_starter_sound.
  - intros a b a' Hb Ha. by apply pass1_starter_sound.
  - split; [constructor|done].
Qed.

End PlannerSoundRoster.

(** X8: Every proposal the planner returns is sound: it benches a starter of
    the roster whose status says confirmed not starting, promotes a bench
    player of the roster who either plays later (known game time, not soon)
    or is confirmed starting, passes the can-swap check against the
    roster's current formation, and is labelled a direct match exactly when
    the two rows have the same position. *)
Theorem find_optimal_swaps_sound self roster current_time :
  ∃ swaps,
    find_optimal_swaps self roster current_time = Ok swaps ∧
    Forall (sound_proposal self roster current_time) swaps.
Proof. apply planned_swaps_sound. Qed.

(** X9: The planner proposes at most one swap per bench player: the number of
    proposals never exceeds the number of bench rows that hold a player,
    however many starters are confirmed not starting. *)
Theorem find_optimal_swaps_at_most_bench self roster current_time :
  ∃ swaps,
    find_optimal_swaps self roster current_time = Ok swaps ∧
    (length swaps ≤ length (occupied (get_bench_players roster)))%nat.
Proof.
  destruct (find_optimal_swaps_total self roster current_time)
    as (swaps & rest & Hrun & Hperm).
  exists swaps. split; [done|].
  apply Permutation_length in Hperm.
  rewrite collect_fst, length_app, length_map in Hperm. lia.
Qed.

Lemma for_each_skip {A B : Type} (body : A → B → result A) (l : list B) (a : A) :
  (∀ b, b ∈ l → body a b = Ok a) → for_each body l a = Ok a.
Proof.
  induction l as [|b l IH]; intros Hbody; simpl; [done|].
  rewrite Hbody by apply list_elem_of_here. simpl.
  apply IH. intros b' Hb'. by apply Hbody, list_elem_of_further.
Qed.

(** X10: Without a starter whose status entry says confirmed not starting, the
    planner proposes nothing, whatever the bench holds; this covers an
    empty status map and starters that are all unknown to it. *)
Theorem find_optimal_swaps_nobody_to_replace self roster current_time :
  (∀ row p ss,
     row ∈ get_starters roster → player row = Some p →
     get_player_status self (Player.id p) = Some ss →
     PlayerStatusM.is_confirmed_not_starting ss = false) →
  find_optimal_swaps self roster current_time = Ok [].
Proof.
  intros Hnone. unfold find_optimal_swaps.
  assert (Hconf : ∀ starter ss,
            (starter, Some ss) ∈ collect self (get_starters roster) →
            PlayerStatusM.is_confirmed_not_starting ss = false).
  { intros starter ss (Hin & p & Hp & Hs)%collect_elem. by eapply Hnone. }
  rewrite for_each_skip; simpl.
  - rewrite for_each_skip; [done|].
    intros [starter [ss|]] Hin; simpl; [|done]. by rewrite (Hconf _ _ Hin).
  - intros [starter [ss|]] Hin; simpl; [|done]. rewrite (Hconf _ _ Hin).
    by destruct (PlayerStatusM.is_game_soon _ _).
Qed.

Lemma find_optimal_swaps_nobody_to_replace_witness :
  find_optimal_swaps Example.self1 (mkRoster [Example.b2] [Example.b1])
    Example.now = Ok [].
Proof.
  apply (find_optimal_swaps_nobody_to_replace Example.self1
           (mkRoster [Example.b2] [Example.b1]) Example.now).
  intros row p ss [->|H]%elem_of_cons Hp Hs; [|by apply elem_of_nil in H].
  injection Hp as <-. vm_compute in Hs. injection Hs as <-. reflexivity.
Defined.

(** X11: With no bench row that holds a player, the planner proposes nothing. *)
Theorem find_optimal_swaps_empty_bench self roster current_time :
  occupied (get_bench_players roster) = [] →
  find_optimal_swaps self roster current_time = Ok [].
Proof.
  intros Hempty. unfold find_optimal_swaps.
  assert (Hpool : collect self (get_bench_players roster) = []).
  { apply fmap_nil_inv with (f := fst). by rewrite collect_fst. }
  rewrite Hpool. rewrite for_each_skip; simpl.
  - rewrite for_each_skip; [done|].
    intros [starter [ss|]] _; simpl; [|done].
    by destruct (PlayerStatusM.is_confirmed_not_starting ss).
  - intros [starter [ss|]] _; simpl; [|done].
    destruct (PlayerStatusM.is_game_soon _ _); [|done].
    by destruct (PlayerStatusM.is_confirmed_not_starting ss).
Qed.

Lemma find_optimal_swaps_empty_bench_witness :
  find_optimal_swaps Example.self1
    (mkRoster Example.starters [mkRosterRow (mkPosition "D") None])
    Example.now = Ok [].
Proof.
  apply (find_optimal_swaps_empty_bench Example.self1
           (mkRoster Example.starters [mkRosterRow (mkPosition "D") None])
           Example.now).
  reflexivity.
Defined.

(** ** More on the status refresh *)

Lemma process_players_frame strptime_today now records self :
  let r := process_players strptime_today now records self in
  league_id r.2 = league_id self ∧ team_id r.2 = team_id self ∧
  last_check_time r.2 = last_check_time self.
Proof.
  revert self. induction records as [|p rest IH]; intros self; simpl; [done|].
  unfold mbind, M_bind, process_player, lift, store_player_status.
  destruct (Json.scorerId p) as [i|]; simpl; [|done].
  unfold mbind, M_bind. simpl.
  destruct (IH (mkLineupOptimizer (league_id self) (team_id self)
                  (<[i := status_of_record strptime_today now p]>
                     (player_statuses self))
                  (last_check_time self))) as (? & ? & ?).
  done.
Qed.

Lemma process_players_statuses strptime_today now records self1 self2 :
  player_statuses self1 = player_statuses self2 →
  (process_players strptime_today now records self1).1
    = (process_players strptime_today now records self2).1 ∧
  player_statuses (process_players strptime_today now records self1).2
    = player_statuses (process_players strptime_today now records self2).2.
Proof.
  revert self1 self2.
  induction records as [|p rest IH]; intros self1 self2 Heq; simpl; [done|].
  unfold mbind, M_bind, process_player, lift, store_player_status.
  destruct (Json.scorerId p) as [i|]; simpl; [|done].
  unfold mbind, M_bind. simpl. apply IH. simpl. by rewrite Heq.
Qed.

(** X12: A refresh rebuilds the status map from scratch: the map it leaves is
    the same whatever map the optimizer held before.  The call always ends
    normally, stamps [last_check_time] with its clock reading even when it
    fails, and keeps the league and team identifiers. *)
Theorem update_player_statuses_rebuilds
    fetch_player_page strptime_today now (self other : LineupOptimizer) :
  let after := (update_player_statuses fetch_player_page strptime_today
                  now self).2 in
  (update_player_statuses fetch_player_page strptime_today now self).1
    = Ok tt ∧
  player_statuses after =
    player_statuses (update_player_statuses fetch_player_page strptime_today
                       now other).2 ∧
  last_check_time after = Some now ∧
  league_id after = league_id self ∧ team_id after = team_id self.
Proof.
  unfold update_player_statuses, try_except. rewrite !body_unfold. simpl.
  destruct (fetch_all_players fetch_player_page) as [all|e]; simpl; [|done].
  set (c1 := mkLineupOptimizer (league_id self) (team_id self) ∅ (Some now)).
  set (c2 := mkLineupOptimizer (league_id other) (team_id other) ∅ (Some now)).
  destruct (process_players_statuses strptime_today now all c1 c2 eq_refl)
    as [Hr Hm].
  destruct (process_players_frame strptime_today now all c1) as (Hl & Ht & Hc).
  simpl in Hl, Ht, Hc.
  destruct (process_players strptime_today now all c1) as [[u1|e1] s1],
           (process_players strptime_today now all c2) as [[u2|e2] s2];
    simpl in *; try done; by destruct u1.
Qed.

Lemma store_all_lookup strptime_today now records m pid :
  store_all strptime_today now records m !! pid =
  match last_record pid records with
  | Some r => Some (status_of_record strptime_today now r)
  | None => m !! pid
  end.
Proof.
  unfold last_record. revert m.
  induction records as [|p rest IH]; intros m; [done|].
  change (store_all strptime_today now (p :: rest) m)
    with (store_all strptime_today now rest
            match Json.scorerId p with
            | Some i => <[i := status_of_record strptime_today now p]> m
            | None => m
            end).
  rewrite IH. rewrite filter_cons.
  destruct (decide (Json.scorerId p = Some pid)) as [Hp|Hp].
  - rewrite last_cons, Hp.
    destruct (last (filter _ rest)); [done|]. by rewrite lookup_insert_eq.
  - destruct (last (filter _ rest)); [done|].
    destruct (Json.scorerId p) as [i|]; [|done].
    rewrite lookup_insert_ne; [done|congruence].
Qed.

(** X13: After a refresh that fetched its pages and found an identifier in each
    record, the entry of a player is the status of the last record of the
    batch that carries the player's identifier, and a player no record
    names has no entry. *)
Theorem update_player_statuses_last_record
    fetch_player_page strptime_today now self records :
  fetch_all_players fetch_player_page = Ok records →
  Forall has_id records →
  ∀ pid,
    player_statuses (update_player_statuses fetch_player_page strptime_today
                       now self).2 !! pid =
    status_of_record strptime_today now <$> last_record pid records.
Proof.
  intros Hfetch Hids pid.
  unfold update_player_statuses, try_except. rewrite body_unfold. simpl.
  rewrite Hfetch.
  destruct (process_players_ok strptime_today now records
              (mkLineupOptimizer (league_id self) (team_id self) ∅ (Some now))
              Hids) as (self' & Hrun & Hmap).
  rewrite Hrun. simpl in *. rewrite Hmap, store_all_lookup, lookup_empty.
  by destruct (last_record pid records).
Qed.

Lemma update_player_statuses_last_record_witness :
  player_statuses
    (update_player_statuses
       (Example.fetch_one_page
          [Example.rec_ok; Example.rec_malformed; Example.rec_ok])
       Example.strptime_today Example.now Example.self1).2 !! "p1"
  = Some (status_of_record Example.strptime_today Example.now Example.rec_ok).
Proof.
  apply (update_player_statuses_last_record
           (Example.fetch_one_page
              [Example.rec_ok; Example.rec_malformed; Example.rec_ok])
           Example.strptime_today Example.now Example.self1
           [Example.rec_ok; Example.rec_malformed; Example.rec_ok]).
  - vm_compute. reflexivity.
  - repeat constructor; by eexists.
Defined.

Lemma fetch_pages_collect fetch_player_page
    (bodies : Z → Json.body) (pages : Z → Json.data)
    (k : nat) (c : Z) (data : Json.body) (acc : list Json.player) :
  1 ≤ c → (c = 1 → data = bodies 1) →
  (∀ p, c ≤ p < c + Z.of_nat k →
        (1 < p → fetch_player_page p = Ok (bodies p)) ∧
        responses_0_data (bodies p) = Ok (pages p)) →
  fetch_pages fetch_player_page k c data acc =
  Ok (acc ++ concat ((page_records ∘ pages) <$> seqZ c (Z.of_nat k)))%list.
Proof.
  revert c data acc. induction k as [|k IH]; intros c data acc Hc Hdata Hpages.
  - simpl. by rewrite app_nil_r.
  - destruct (Hpages c) as [Hfetch Hresp]; [lia|].
    rewrite seqZ_cons by lia. simpl fetch_pages.
    assert (Hbody : (if 1 <? c then fetch_player_page c else Ok data)
                    = Ok (bodies c)).
    { destruct (Z.ltb_spec 1 c) as [Hlt|Hge]; [by apply Hfetch|].
      assert (c = 1) as -> by lia. by rewrite Hdata. }
    rewrite Hbody. simpl. rewrite Hresp. simpl.
    rewrite (IH (c + 1)); try lia.
    + replace (Z.pred (Z.of_nat (S k))) with (Z.of_nat k) by lia.
      replace (Z.succ c) with (c + 1) by lia.
      simpl. unfold page_records at 2.
      destruct (Json.statsTable (pages c)); simpl; by rewrite <- ?app_assoc.
    + intros p Hp. apply Hpages. lia.
Qed.

(** X14: The refresh requests the pages [1 .. n], where [n] is the page count
    the first page declares, and collects their records in page order; it
    asks for no page beyond [n], so what the feed would answer there does
    not matter. *)
Theorem fetch_all_players_pages fetch_player_page
    (bodies : Z → Json.body) (pages : Z → Json.data) :
  fetch_player_page 1 = Ok (bodies 1) →
  responses_0_data (bodies 1) = Ok (pages 1) →
  (∀ p, 1 < p ≤ total_pages_of (pages 1) →
        fetch_player_page p = Ok (bodies p) ∧
        responses_0_data (bodies p) = Ok (pages p)) →
  fetch_all_players fetch_player_page =
  Ok (concat ((page_records ∘ pages)
                <$> page_numbers (total_pages_of (pages 1)))).
Proof.
  intros H1 Hr1 Hrest. unfold fetch_all_players, page_numbers.
  rewrite H1. simpl. rewrite Hr1. simpl.
  rewrite (fetch_pages_collect fetch_player_page bodies pages); try done.
  - simpl. destruct (Z.le_gt_cases 0 (total_pages_of (pages 1))) as [Hn|Hn].
    + by rewrite Z2Nat.id.
    + rewrite Z2Nat.nonpos by lia. simpl.
      destruct (total_pages_of (pages 1)); try done; lia.
  - intros p Hp. destruct (Z.le_gt_cases (total_pages_of (pages 1)) 0).
    { rewrite Z2Nat.nonpos in Hp by done. lia. }
    rewrite Z2Nat.id in Hp by lia.
    destruct (decide (p = 1)) as [->|Hne]; [split; [lia|done]|].
    destruct (Hrest p) as [? ?]; [lia|]. done.
Qed.

Lemma fetch_all_players_pages_witness :
  fetch_all_players Feed.fetch_two_pages =
  Ok [Example.rec_ok; Example.rec_malformed; Example.rec_last].
Proof.
  apply (fetch_all_players_pages Feed.fetch_two_pages Feed.bodies Feed.pages).
  - reflexivity.
  - reflexivity.
  - intros p Hp. change (total_pages_of (Feed.pages 1)) with 2 in Hp.
    assert (p = 2) as -> by lia. split; reflexivity.
Defined.

(** X15: When the first page carries no pagination descriptor, or declares no
    page, the page loop never runs: the refresh ends normally with an empty
    status map, even if that page holds records. *)
Theorem update_player_statuses_no_pages
    fetch_player_page strptime_today now self body d :
  fetch_player_page 1 = Ok body →
  responses_0_data body = Ok d →
  total_pages_of d ≤ 0 →
  fetch_all_players fetch_player_page = Ok [] ∧
  update_player_statuses fetch_player_page strptime_today now self =
  (Ok tt, mkLineupOptimizer (league_id self) (team_id self) ∅ (Some now)).
Proof.
  intros Hfetch Hresp Hn.
  assert (Hall : fetch_all_players fetch_player_page = Ok []).
  { unfold fetch_all_players. rewrite Hfetch. simpl. rewrite Hresp. simpl.
    by rewrite Z2Nat.nonpos. }
  split; [done|].
  unfold update_player_statuses, try_except. rewrite body_unfold. simpl.
  by rewrite Hall.
Qed.

Lemma update_player_statuses_no_pages_witness :
  fetch_all_players Feed.fetch_unpaginated = Ok [] ∧
  update_player_statuses Feed.fetch_unpaginated Example.strptime_today
    Example.now Example.self1 =
  (Ok tt, mkLineupOptimizer "league" "team" ∅ (Some Example.now)).
Proof.
  apply (update_player_statuses_no_pages Feed.fetch_unpaginated
           Example.strptime_today Example.now Example.self1
           (Feed.body_of Feed.unpaginated) Feed.unpaginated).
  - reflexivity.
  - reflexivity.
  - vm_compute. discriminate.
Defined.

(** ** The opponent composite *)

Lemma prefix_br_no_lt c s :
  Ascii.eqb c "<" = false → String.prefix "<br/>" (String c s) = false.
Proof.
  intros Hc.
  change (String.prefix "<br/>" (String c s))
    with (match ascii_dec "<" c with
          | left _ => String.prefix "br/>" s
          | right _ => false
          end).
  destruct (ascii_dec "<" c) as [<-|_]; [|done].
  by rewrite Ascii.eqb_refl in Hc.
Qed.

Lemma split_no_lt s : no_lt s = true → split s "<br/>" = [s].
Proof.
  unfold split. induction s as [|c s IH]; [done|].
  intros [Hc%negb_true_iff Hs]%andb_true_iff.
  change (split_from "<br/>" (String c s) 0) with
    (if String.prefix "<br/>" (String c s)
     then "" :: split_from "<br/>" s (Nat.pred (String.length "<br/>"))
     else match split_from "<br/>" s 0 with
          | h :: t => String c h :: t
          | [] => [String c ""]
          end).
  rewrite prefix_br_no_lt by done. by rewrite IH.
Qed.

Lemma prefix_br_here s : String.prefix "<br/>" ("<br/>" +:+ s) = true.
Proof. destruct s; vm_compute; reflexivity. Qed.

Lemma split_composite opp time_str :
  no_lt opp = true →
  split (opp +:+ "<br/>" +:+ time_str) "<br/>" = opp :: split time_str "<br/>".
Proof.
  unfold split. induction opp as [|c opp IH].
  { intros _.
    change (split_from "<br/>" ("" +:+ "<br/>" +:+ time_str) 0) with
      (if String.prefix "<br/>" ("<br/>" +:+ time_str)
       then "" :: split_from "<br/>" time_str 0
       else match split_from "<br/>" ("br/>" +:+ time_str) 0 with
            | h :: t => String "<" h :: t
            | [] => ["<"]
            end).
    by rewrite prefix_br_here. }
  intros [Hc%negb_true_iff Ho]%andb_true_iff.
  change (String c opp +:+ "<br/>" +:+ time_str)
    with (String c (opp +:+ "<br/>" +:+ time_str)).
  change (split_from "<br/>" (String c (opp +:+ "<br/>" +:+ time_str)) 0) with
    (if String.prefix "<br/>" (String c (opp +:+ "<br/>" +:+ time_str))
     then "" :: split_from "<br/>" (opp +:+ "<br/>" +:+ time_str)
                  (Nat.pred (String.length "<br/>"))
     else match split_from "<br/>" (opp +:+ "<br/>" +:+ time_str) 0 with
          | h :: t => String c h :: t
          | [] => [String c ""]
          end).
  rewrite prefix_br_no_lt by done. by rewrite IH.
Qed.

(** X16: A composite made of an opponent label, the separator [<br/>] and a
    time token, neither of which contains [<], is read as that opponent
    and the kick-off parsed from that token; the status is locked from one
    minute before the kick-off. *)
Theorem status_of_record_well_formed strptime_today now p opp time_str :
  Json.opponent p = Some (opp +:+ "<br/>" +:+ time_str) →
  no_lt opp = true → no_lt time_str = true →
  let st := status_of_record strptime_today now p in
  opponent st = Some opp ∧
  game_time st = strptime_today now time_str ∧
  is_locked st = locked_at now (strptime_today now time_str).
Proof.
  intros Hopp Ho Ht. unfold status_of_record, parse_opponent.
  rewrite Hopp, split_composite, split_no_lt by done.
  by destruct (starting_benched _).
Qed.

Lemma status_of_record_well_formed_witness :
  opponent (status_of_record Example.strptime_today Example.now Example.rec_ok)
    = Some "vs MUN" ∧
  game_time (status_of_record Example.strptime_today Example.now Example.rec_ok)
    = Example.strptime_today Example.now "4:00PM" ∧
  is_locked (status_of_record Example.strptime_today Example.now Example.rec_ok)
    = locked_at Example.now (Example.strptime_today Example.now "4:00PM").
Proof.
  apply (status_of_record_well_formed Example.strptime_today Example.now
           Example.rec_ok "vs MUN" "4:00PM"); reflexivity.
Defined.

(** ** One optimization cycle *)

Lemma update_player_statuses_ends fetch_player_page strptime_today now self :
  (update_player_statuses fetch_player_page strptime_today now self).1 = Ok tt ∧
  team_id (update_player_statuses fetch_player_page strptime_today now self).2
    = team_id self.
Proof.
  unfold update_player_statuses, try_except. rewrite body_unfold. simpl.
  destruct (fetch_all_players fetch_player_page) as [all|e]; simpl; [|done].
  pose proof (process_players_frame strptime_today now all
                (mkLineupOptimizer (league_id self) (team_id self) ∅ (Some now)))
    as (_ & Ht & _).
  simpl in Ht.
  destruct (process_players _ _ _ _) as [[[]|e] self']; simpl in *; done.
Qed.

Lemma log_planned_ok swaps :
  Forall (λ p, is_Some (player (proposal_starter p)) ∧
               is_Some (player (proposal_bench p))) swaps →
  log_planned swaps = Ok tt.
Proof.
  unfold log_planned. induction 1 as [|p swaps [[sp Hs] [bp Hb]] _ IH]; [done|].
  simpl. unfold the_player. rewrite Hs, Hb. simpl. exact IH.
Qed.

Lemma calls_of_occupied team swaps :
  Forall (λ p, is_Some (player (proposal_starter p)) ∧
               is_Some (player (proposal_bench p))) swaps →
  Forall2 (λ p call, call_of team p = Some call)
          swaps (omap (call_of team) swaps).
Proof.
  induction 1 as [|p swaps [[sp Hs] [bp Hb]] _ IH]; [constructor|].
  assert (Hcall : call_of team p = Some (team, Player.id sp, Player.id bp)).
  { unfold call_of. by rewrite Hs, Hb. }
  change (omap (call_of team) (p :: swaps))
    with (match call_of team p with
          | Some c => c :: omap (call_of team) swaps
          | None => omap (call_of team) swaps
          end).
  rewrite Hcall. by constructor.
Qed.

Section CycleFacts.

Variable roster_info : string → result Roster.
Variable swap_players : list swap_call → swap_call → result bool.
Variable fetch_player_page : Z → result Json.body.
Variable strptime_today : Z → string → option Z.

Local Abbreviation cycle :=
  (optimize_lineup roster_info swap_players fetch_player_page strptime_today).

(** The execution loop sends one call per proposal, in order, whatever the
    roster API answers. *)
Lemma execute_swaps_log swaps w :
  execute_swaps swap_players swaps w =
  (Ok tt, mkWorld (optimizer w)
            (swap_log w ++ omap (call_of (team_id (optimizer w))) swaps)%list).
Proof.
  revert w. induction swaps as [|p swaps IH]; intros [self log]; simpl.
  - by rewrite app_nil_r.
  - unfold mbind, W_bind, execute_swap, call_of, the_player. simpl.
    destruct (player (proposal_starter p)) as [sp|]; simpl; [|apply IH].
    destruct (player (proposal_bench p)) as [bp|]; simpl; [|apply IH].
    destruct (swap_players log _) as [[|]|]; rewrite IH; simpl;
      by rewrite <- app_assoc.
Qed.

(** X17: A cycle that cannot fetch the roster, or finds its formation illegal,
    does nothing: no status refresh, no swap call, and no exception leaves
    [optimize_lineup]. *)
Theorem optimize_lineup_skips now_refresh now_plan (w : World) :
  (∃ e, roster_info (team_id (optimizer w)) = Raise e) ∨
  (∃ roster, roster_info (team_id (optimizer w)) = Ok roster ∧
             FormationM.is_legal (get_current_formation roster) = false) →
  cycle now_refresh now_plan w = (Ok tt, w).
Proof.
  unfold optimize_lineup, optimize_lineup_body, raising.
  intros [[e He]|(roster & Hr & Hill)]; unfold mbind, W_bind.
  - by rewrite He.
  - by rewrite Hr, Hill.
Qed.

(** X18: A cycle on a legal formation refreshes the statuses, plans on the
    refreshed map and sends exactly one swap call per proposal, in the
    planner's order, whether the roster API accepts, refuses or fails each
    call; no exception leaves [optimize_lineup]. *)
Theorem optimize_lineup_executes_plan now_refresh now_plan (w : World) roster :
  roster_info (team_id (optimizer w)) = Ok roster →
  FormationM.is_legal (get_current_formation roster) = true →
  let refreshed :=
    (update_player_statuses fetch_player_page strptime_today now_refresh
       (optimizer w)).2 in
  ∃ swaps calls,
    find_optimal_swaps refreshed roster now_plan = Ok swaps ∧
    Forall2 (λ p call, call_of (team_id (optimizer w)) p = Some call)
            swaps calls ∧
    cycle now_refresh now_plan w =
    (Ok tt, mkWorld refreshed (swap_log w ++ calls)%list).
Proof.
  intros Hr Hlegal refreshed.
  destruct (update_player_statuses_ends fetch_player_page strptime_today
              now_refresh (optimizer w)) as [Hok Hteam].
  destruct (planned_swaps_sound refreshed roster now_plan)
    as (swaps & Hplan & Hsound).
  assert (Hocc : Forall (λ p, is_Some (player (proposal_starter p)) ∧
                              is_Some (player (proposal_bench p))) swaps).
  { eapply Forall_impl; [exact Hsound|].
    intros p (_ & _ & (sp & ? & Hsp & _) & (bp & ? & Hbp & _) & _). eauto. }
  exists swaps, (omap (call_of (team_id (optimizer w))) swaps).
  split; [done|]. split.
  { by apply calls_of_occupied. }
  unfold optimize_lineup, optimize_lineup_body, raising, mbind, W_bind.
  rewrite Hr, Hlegal. simpl.
  unfold on_optimizer at 1.
  fold refreshed in Hok, Hteam.
  destruct (update_player_statuses _ _ _ _) as [r self'] eqn:Hup.
  simpl in Hok, Hteam, refreshed. subst r. subst refreshed.
  unfold on_optimizer, call_find_optimal_swaps. simpl.
  rewrite Hplan. destruct swaps as [|p swaps]; [by rewrite app_nil_r|].
  rewrite (log_planned_ok _ Hocc). rewrite execute_swaps_log. simpl.
  by rewrite Hteam.
Qed.

End CycleFacts.

Lemma optimize_lineup_skips_witness :
  optimize_lineup Cycle.short_roster_info Cycle.swap_players_down Cycle.feed
    Example.strptime_today Cycle.now_refresh Cycle.now_plan Cycle.world
  = (Ok tt, Cycle.world).
Proof.
  apply (optimize_lineup_skips Cycle.short_roster_info Cycle.swap_players_down
           Cycle.feed Example.strptime_today Cycle.now_refresh Cycle.now_plan
           Cycle.world).
  right. eexists. split; reflexivity.
Defined.

Lemma optimize_lineup_executes_plan_witness :
  ∃ swaps calls,
    find_optimal_swaps
      (update_player_statuses Cycle.feed Example.strptime_today
         Cycle.now_refresh Example.self3).2
      Example.roster1 Cycle.now_plan = Ok swaps ∧
    Forall2 (λ p call, call_of "team" p = Some call) swaps calls ∧
    optimize_lineup Cycle.roster_info Cycle.swap_players_down Cycle.feed
      Example.strptime_today Cycle.now_refresh Cycle.now_plan Cycle.world
    = (Ok tt,
       mkWorld (update_player_statuses Cycle.feed Example.strptime_today
                  Cycle.now_refresh Example.self3).2
               ([] ++ calls)%list).
Proof.
  apply (optimize_lineup_executes_plan Cycle.roster_info
           Cycle.swap_players_down Cycle.feed Example.strptime_today
           Cycle.now_refresh Cycle.now_plan Cycle.world Example.roster1);
    reflexivity.
Defined.

(** ** Locks and legality of what is proposed *)

Lemma can_swap_players_unlocked self starter bench f reason :
  can_swap_players self starter bench f = Ok (true, reason) →
  ∃ sp bp,
    player starter = Some sp ∧ player bench = Some bp ∧
    locked (get_player_status self (Player.id sp)) = false ∧
    locked (get_player_status self (Player.id bp)) = false.
Proof.
  unfold can_swap_players, the_player.
  destruct (player starter) as [sp|]; simpl; [|done].
  destruct (locked (get_player_status self (Player.id sp))) eqn:Hs; [done|].
  destruct (player bench) as [bp|]; simpl; [|done].
  destruct (locked (get_player_status self (Player.id bp))) eqn:Hb; [done|].
  intros _. by exists sp, bp.
Qed.

(** X19: The planner never proposes a locked player, on either side, and each
    proposal, applied on its own to the roster's current formation, leaves
    a legal formation. *)
Theorem find_optimal_swaps_unlocked_legal self roster current_time :
  ∃ swaps,
    find_optimal_swaps self roster current_time = Ok swaps ∧
    Forall (λ p,
      (∃ sp bp,
         player (proposal_starter p) = Some sp ∧
         player (proposal_bench p) = Some bp ∧
         locked (get_player_status self (Player.id sp)) = false ∧
         locked (get_player_status self (Player.id bp)) = false) ∧
      FormationM.is_legal
        (formation_after_swap (proposal_starter p) (proposal_bench p)
           (get_current_formation roster)) = true) swaps.
Proof.
  destruct (planned_swaps_sound self roster current_time)
    as (swaps & Hrun & Hsound).
  exists swaps. split; [done|].
  eapply Forall_impl; [exact Hsound|].
  intros p (_ & _ & _ & _ & Hcs & _). split.
  - by apply can_swap_players_unlocked in Hcs.
  - by apply can_swap_players_valid in Hcs as (_ & _ & _ & ?).
Qed.
